(** * cuegui/PreviewWidget.py: the preview dialog and its watch thread

    A shallow embedding of [PreviewProcessorDialog] (port discovery in the
    frame log, the [process] set-up, the two slots) and of
    [PreviewProcessorWatchThread] (the polling loop of [run]), with the
    properties of the written specification stated over it.

    Conventions (Python 3).  [int] is [Z]; a [float] is a binary64 number
    ([PrimFloat]), as [time.time()] returns it; [bytes] and the [str]
    values the code only passes on (paths, URLs) are [string]; the text of
    the log, which the code inspects character by character, is a list of
    Unicode code points; a file open for reading is what its iteration
    yields: lines, then the end of the file or an exception; an uncaught
    exception is the [Raise] result. *)

From Stdlib Require Import String Ascii List ZArith NArith QArith Bool Arith Lia.
From Stdlib Require Import DecimalString Uint63 Sorted.
From Stdlib Require Import Floats.PrimFloat Floats.FloatOps Floats.SpecFloat.
Import ListNotations.

Set Implicit Arguments.

(** ** The fragment of Python the module relies on *)

Module Py.

Inductive exn : Type :=
| Exception (msg : string)
| AttributeError (attr : string)
| IndexError
| ValueError
| TypeError
| UnicodeDecodeError
| FileNotFoundError.

Inductive result (A : Type) : Type :=
| Ok (a : A)
| Raise (e : exn).
Arguments Ok {A} a.
Arguments Raise {A} e.

(** [s.split(c)] on [bytes] or on a [str] passed on, for a one-character
    separator: never empty. *)
Fixpoint split (c : ascii) (s : string) : list string :=
  match s with
  | EmptyString => [EmptyString]
  | String a rest =>
      if Ascii.eqb a c then EmptyString :: split c rest
      else match split c rest with
           | [] => [String a EmptyString]
           | piece :: pieces => String a piece :: pieces
           end
  end.

(** [l[i]] on a list: [IndexError] out of range. *)
Definition getitem {A} (l : list A) (i : nat) : result A :=
  match nth_error l i with
  | Some x => Ok x
  | None => Raise IndexError
  end.

(** [float(n)] for an [int], as [n + x] with [x] a float converts it: the
    nearest binary64 number, ties to even.  (Beyond the range of binary64
    Python raises [OverflowError]; this gives infinity instead, of no
    consequence for a number of seconds.) *)
Definition float_of_pos (p : positive) : float :=
  let shift := (Z.log2 (Z.pos p) + 1 - 53)%Z in
  if (shift <=? 0)%Z then of_uint63 (Uint63.of_Z (Z.pos p))
  else
    let q := Z.shiftr (Z.pos p) shift in
    let r := Z.land (Z.pos p) (Z.ones shift) in
    let half := Z.shiftl 1 (shift - 1) in
    let m := if (half <? r)%Z || ((r =? half)%Z && Z.odd q)
             then (q + 1)%Z else q in
    Z.ldexp (of_uint63 (Uint63.of_Z m)) shift.

Definition float_of_int (n : Z) : float :=
  match n with
  | Z0 => PrimFloat.zero
  | Zpos p => float_of_pos p
  | Zneg p => PrimFloat.opp (float_of_pos p)
  end.


End Py.

Import Py.

(** ** Text: [str] values as lists of code points *)

Module Text.

Definition text : Type := list N.

(** The text of a literal (code points below 256). *)
Definition text_of (s : string) : text :=
  map N_of_ascii (list_ascii_of_string s).

(** The end of line. *)
Definition nl : text := [10%N].

(** [c in s] for a character. *)
Definition contains (c : N) (s : text) : bool := existsb (N.eqb c) s.

(** [s.startswith(p)] *)
Fixpoint startswith (s p : text) : bool :=
  match p, s with
  | [], _ => true
  | _ :: _, [] => false
  | b :: p', a :: s' => N.eqb a b && startswith s' p'
  end.

(** [s.split(c)] for a one-character separator: never empty. *)
Fixpoint split (c : N) (s : text) : list text :=
  match s with
  | [] => [[]]
  | a :: rest =>
      if N.eqb a c then [] :: split c rest
      else match split c rest with
           | [] => [[a]]
           | piece :: pieces => (a :: piece) :: pieces
           end
  end.

(** The code points for which [str.isspace] holds: those [str.strip]
    removes. *)
Definition isspace (c : N) : bool :=
  ((9 <=? c) && (c <=? 13) || (28 <=? c) && (c <=? 32)
   || (c =? 133) || (c =? 160) || (c =? 5760)
   || (8192 <=? c) && (c <=? 8202)
   || (c =? 8232) || (c =? 8233) || (c =? 8239) || (c =? 8287)
   || (c =? 12288))%N.

(** The white space [int] skips around a number: the same but for the
    four separators 28 to 31. *)
Definition int_isspace (c : N) : bool :=
  isspace c && negb ((28 <=? c) && (c <=? 31))%N.

Section Strip.

Variable space : N -> bool.

Fixpoint lstrip_by (s : text) : text :=
  match s with
  | [] => []
  | a :: rest => if space a then lstrip_by rest else s
  end.

Fixpoint rstrip_by (s : text) : text :=
  match s with
  | [] => []
  | a :: rest =>
      match rstrip_by rest with
      | [] => if space a then [] else [a]
      | kept => a :: kept
      end
  end.

Definition strip_by (s : text) : text := rstrip_by (lstrip_by s).

End Strip.

(** [s.strip()] *)
Definition strip (s : text) : text := strip_by isspace s.

(** The code points of the digit zero of every decimal script (general
    category Nd, Unicode 14.0): the nine that follow each are its digits
    one to nine. *)
Definition decimal_zeros : list N :=
  [48; 1632; 1776; 1984; 2406; 2534; 2662; 2790; 2918; 3046; 3174; 3302;
   3430; 3558; 3664; 3792; 3872; 4160; 4240; 6112; 6160; 6470; 6608; 6784;
   6800; 6992; 7088; 7232; 7248; 42528; 43216; 43264; 43472; 43504; 43600;
   44016; 65296; 66720; 68912; 69734; 69872; 69942; 70096; 70384; 70736;
   70864; 71248; 71360; 71472; 71904; 72016; 72784; 73040; 73120; 92768;
   92864; 93008; 120782; 120792; 120802; 120812; 120822; 123200; 123632;
   125264; 130032]%N.

(** The value of a decimal digit. *)
Definition digit (c : N) : option Z :=
  match find (fun zero => (zero <=? c) && (c <? zero + 10))%N decimal_zeros with
  | Some zero => Some (Z.of_N (c - zero))
  | None => None
  end.

(** The digits after a first one: [digit] or ["_" digit], repeated; the
    value and the number of digits read. *)
Fixpoint more_digits (acc : Z) (count : nat) (s : text) : option (Z * nat) :=
  match s with
  | [] => Some (acc, count)
  | a :: rest =>
      match digit a with
      | Some d => more_digits (10 * acc + d) (S count) rest
      | None =>
          if (a =? 95)%N then
            match rest with
            | b :: rest' =>
                match digit b with
                | Some d => more_digits (10 * acc + d) (S count) rest'
                | None => None
                end
            | [] => None
            end
          else None
      end
  end.

Definition decimal (s : text) : option (Z * nat) :=
  match s with
  | a :: rest =>
      match digit a with
      | Some d => more_digits d 1 rest
      | None => None
      end
  | [] => None
  end.

(** [sys.get_int_max_str_digits()] *)
Definition max_str_digits : nat := 4300.

(** [int(s)] on a [str]: white space around, an optional sign, then
    decimal digits in the grammar of a literal, at most 4300 of them;
    [ValueError] otherwise. *)
Definition int (s : text) : result Z :=
  let body :=
    match strip_by int_isspace s with
    | a :: rest =>
        if (a =? 43)%N then decimal rest
        else if (a =? 45)%N then
          match decimal rest with
          | Some (n, count) => Some ((- n)%Z, count)
          | None => None
          end
        else decimal (a :: rest)
    | [] => None
    end in
  match body with
  | Some (n, count) =>
      if (max_str_digits <? count)%nat then Raise ValueError else Ok n
  | None => Raise ValueError
  end.

End Text.

(** ** [PreviewProcessorDialog.__findHttpPort] *)

Module FindHttpPort.

Import Text.
Local Open Scope string_scope.
Local Open Scope Z_scope.

(** What [for line in fp] yields: lines (each with its end of line), then
    the end of the file or the exception the text layer raises (a
    decoding error is raised for the whole block it occurs in, before any
    line of that block is yielded). *)
Inductive lines : Type :=
| Eof
| Line (line : text) (rest : lines)
| Fail (e : exn).

(** The lines [before], then what [rest] yields. *)
Fixpoint prepend (before : list text) (rest : lines) : lines :=
  match before with
  | [] => rest
  | line :: before' => Line line (prepend before' rest)
  end.

(** The exception of line 144. *)
Definition PortNotFound : exn :=
  Exception "Katana 2.7.19 and above is required for preview feature.".

Definition Preview_Server : text := text_of "Preview Server".

(** Line 140: [int(line.split(":")[1].strip())]. *)
Definition port_of_line (line : text) : result Z :=
  match getitem (split 58 line) 1 with
  | Ok field => int (strip field)
  | Raise e => Raise e
  end.

(** Lines 134-144.  [counter] is the value of the variable before the
    line is read; the [break] and the end of the file both fall through
    to the [raise] after the loop, an exception of the iteration leaves
    through the [finally]. *)
Fixpoint scan (counter : Z) (fp : lines) : result Z :=
  match fp with
  | Eof => Raise PortNotFound
  | Fail e => Raise e
  | Line line rest =>
      let counter := counter + 1 in
      if 5000 <=? counter then Raise PortNotFound
      else if startswith line Preview_Server then port_of_line line
      else scan counter rest
  end.

(** [__findHttpPort], given what lines 131-132 give: the file open on the
    log, or the exception of [getFrameLogFile] or of [open]. *)
Definition findHttpPort (log : result lines) : result Z :=
  match log with
  | Ok fp => scan 0 fp
  | Raise e => Raise e
  end.

(** A line that does not announce the preview server. *)
Definition no_server (line : text) : Prop :=
  startswith line Preview_Server = false.

(** The first [n] things the iteration yields; the end of the file after
    them. *)
Fixpoint take (n : nat) (fp : lines) : lines :=
  match n, fp with
  | O, _ => Eof
  | S n', Line line rest => Line line (take n' rest)
  | S _, other => other
  end.

(** The lines yielded before the end of the file or the exception. *)
Fixpoint yielded (fp : lines) : list text :=
  match fp with
  | Line line rest => line :: yielded rest
  | _ => []
  end.

(** The exception that ends the iteration, if one does. *)
Fixpoint failure (fp : lines) : option exn :=
  match fp with
  | Eof => None
  | Fail e => Some e
  | Line _ rest => failure rest
  end.

End FindHttpPort.

(** ** A state and exception monad

    A computation reads and updates a state of type [S] and either returns
    a value or raises; the state reached when the exception is raised is
    kept, so that what was done before it stays observable. *)

Module StateExn.

Definition M (S A : Type) : Type := S -> result A * S.

Definition ret {S A} (a : A) : M S A := fun s => (Ok a, s).

Definition bind {S A B} (m : M S A) (f : A -> M S B) : M S B :=
  fun s =>
    match m s with
    | (Ok a, s') => f a s'
    | (Raise e, s') => (Raise e, s')
    end.

Definition lift {S A} (r : result A) : M S A := fun s => (r, s).

Definition gets {S A} (f : S -> A) : M S A := fun s => (Ok (f s), s).

Definition modify {S} (f : S -> S) : M S unit := fun s => (Ok tt, f s).

(** [[x for x in l if p(x)]] with an effectful test, in list order. *)
Fixpoint filterM {S A} (p : A -> M S bool) (l : list A) : M S (list A) :=
  match l with
  | [] => ret []
  | x :: rest =>
      bind (p x) (fun keep =>
      bind (filterM p rest) (fun kept =>
      ret (if keep then x :: kept else kept)))
  end.

Module Notations.
Notation "x <- m ;; k" := (bind m (fun x => k))
  (at level 61, m at next level, right associativity).
Notation "m ;; k" := (bind m (fun _ => k))
  (at level 61, right associativity).
End Notations.

End StateExn.

Import StateExn StateExn.Notations.

(** ** Qt signals *)

Module Qt.

(** What a thread does that others can observe, in the order it does it. *)
Inductive event : Type :=
| EmitOldStyle (signature : string) (args : list Z)
    (* [self.emit(QtCore.SIGNAL(signature), a, b)] *)
| EmitSignal (name : string) (args : list Z)
    (* [self.name.emit(a, b)] *)
| Sleep (seconds : Z)
    (* [time.sleep(seconds)] *)
| Warning (msg : string)
    (* [logger.warning(msg)] *).

(** The signals an instance of a class exposes as attributes, by name. *)
Definition signals : Type := list string.

(** Those every [QThread] has (from [QThread] and [QObject]). *)
Definition QThread_signals : signals :=
  ["started"; "finished"; "destroyed"; "objectNameChanged"]%string.

(** [self.<name>] where a signal is expected: Python raises
    [AttributeError] when neither the class nor its bases bind the name. *)
Definition getattr (cls : signals) (name : string) : result string :=
  if existsb (String.eqb name) cls then Ok name
  else Raise (AttributeError name).

End Qt.

Import Qt.

(** ** [PreviewProcessorWatchThread] *)

Module PreviewProcessorWatchThread.

Local Open Scope string_scope.

(** Line 153: the one signal of the class body, on top of [QThread]'s. *)
Definition class_signals : signals := "existCountChanged" :: QThread_signals.

(** The instance attributes [__items] and [__timeout]. *)
Record thread : Type := { items : list string; timeout : Z }.

(** Lines 155-158. *)
Definition __init__ (items : list string) : thread :=
  {| items := items; timeout := (60 + 30 * Z.of_nat (length items))%Z |}.

(** The surroundings of a run.  Time passes in [time.sleep] only: after
    [k] sleeps the file system answers [path_exists k] and the clock
    reads [clock k]. *)
Record world : Type := {
  path_exists : nat -> string -> bool;
  clock : nat -> float
}.

Record run_state : Type := {
  sleeps : nat;          (* calls of [time.sleep] so far *)
  trace : list event     (* what was emitted, slept and logged, oldest first *)
}.

(** How a pass of the loop ends: it goes on, or leaves by the [break] of
    line 171 ([Completed]) or by the one of line 176 ([TimedOut]). *)
Inductive status : Type := Running | Completed | TimedOut.

(** [a > b] on floats. *)
Definition gt (a b : float) : bool := PrimFloat.ltb b a.

(** [self.__timeout + start_time], the right-hand side of line 173: the
    [int] is converted and the sum is rounded to the nearest float. *)
Definition deadline (self : thread) (start_time : float) : float :=
  PrimFloat.add (float_of_int (timeout self)) start_time.

Section Run.

Variable cls : signals.
Variable w : world.
Variable self : thread.

Definition T := M run_state.

Definition record (e : event) : T unit :=
  modify (fun s => {| sleeps := sleeps s; trace := trace s ++ [e] |}).

Definition os_path_exists (path : string) : T bool :=
  gets (fun s => path_exists w (sleeps s) path).

Definition time_time : T float := gets (fun s => clock w (sleeps s)).

Definition time_sleep (seconds : Z) : T unit :=
  modify (fun s => {| sleeps := S (sleeps s);
                      trace := trace s ++ [Sleep seconds] |}).

Definition emit (signature : string) (args : list Z) : T unit :=
  record (EmitOldStyle signature args).

Definition signal_emit (name : string) (args : list Z) : T unit :=
  signal <- lift (getattr cls name) ;;
  record (EmitSignal signal args).

Definition len (l : list string) : Z := Z.of_nat (length l).

(** Lines 167-176: one pass of the [while 1] loop. *)
Definition pass (start_time : float) : T status :=
  existing <- filterM os_path_exists (items self) ;;
  let count := len existing in
  emit "existCountChanged(int, int)" [count; len (items self)] ;;
  signal_emit "existsCountChanged" [count; len (items self)] ;;
  if (count =? len (items self))%Z then ret Completed
  else
    time_sleep 1 ;;
    now <- time_time ;;
    if gt now (deadline self start_time) then
      signal_emit "timeout" [] ;;
      record (Warning "Timed out waiting for preview server.") ;;
      ret TimedOut
    else ret Running.

(** The loop, cut after [passes] passes: [Running] is returned when it
    has not left by then. *)
Fixpoint loop (start_time : float) (passes : nat) : T status :=
  match passes with
  | O => ret Running
  | S n =>
      st <- pass start_time ;;
      match st with
      | Running => loop start_time n
      | _ => ret st
      end
  end.

(** Lines 160-176. *)
Definition run (passes : nat) : T status :=
  start_time <- time_time ;;
  loop start_time passes.

End Run.

Definition initial : run_state := {| sleeps := 0; trace := [] |}.

(** The payload of a progress notification, [None] for other events. *)
Definition progress (e : event) : option (Z * Z) :=
  match e with
  | EmitOldStyle "existCountChanged(int, int)" [current; total]
  | EmitSignal "existCountChanged" [current; total]
  | EmitSignal "existsCountChanged" [current; total] => Some (current, total)
  | _ => None
  end.

Definition is_timeout (e : event) : bool :=
  match e with
  | EmitSignal "timeout" [] => true
  | _ => false
  end.

Definition is_notification (e : event) : bool :=
  match e with
  | EmitOldStyle _ _ | EmitSignal _ _ => true
  | _ => false
  end.

(** Number of paths of [l] that exist after [k] sleeps. *)
Definition existing_count (w : world) (k : nat) (l : list string) : Z :=
  len (filter (path_exists w k) l).

(** The two emissions of a pass started in state [s] (lines 168, 169). *)
Definition first_emit (w : world) (self : thread) (s : run_state) : event :=
  EmitOldStyle "existCountChanged(int, int)"
    [existing_count w (sleeps s) (items self); len (items self)].

Definition second_emit (w : world) (self : thread) (s : run_state) : event :=
  EmitSignal "existsCountChanged"
    [existing_count w (sleeps s) (items self); len (items self)].

(** The state [s] after [slept] more sleeps and the events [evs]. *)
Definition after (s : run_state) (slept : nat) (evs : list event) : run_state :=
  {| sleeps := slept + sleeps s; trace := trace s ++ evs |}.

(** The payloads of the progress notifications of a trace, in order. *)
Fixpoint payloads (tr : list event) : list (Z * Z) :=
  match tr with
  | [] => []
  | e :: rest =>
      match progress e with
      | Some p => p :: payloads rest
      | None => payloads rest
      end
  end.

Definition count_sleeps (tr : list event) : nat :=
  length (filter (fun e => match e with Sleep _ => true | _ => false end) tr).

(** Every progress notification of [tr] carries the number of items that
    exist at its tick and the number of items; [k] sleeps precede [tr]. *)
Fixpoint ticks_ok (w : world) (self : thread) (k : nat) (tr : list event)
  : Prop :=
  match tr with
  | [] => True
  | Sleep _ :: rest => ticks_ok w self (S k) rest
  | e :: rest =>
      match progress e with
      | Some p => p = (existing_count w k (items self), len (items self))
      | None => True
      end /\ ticks_ok w self k rest
  end.

(** A notification after which the consumer expects nothing more: progress
    with [current = total], or the timeout. *)
Definition is_final (e : event) : bool :=
  match progress e with
  | Some (current, total) => (current =? total)%Z
  | None => is_timeout e
  end.

(** The clock readings after the sleeps 1 .. k do not exceed the deadline:
    the comparison of line 173 fails for each. *)
Definition within (w : world) (self : thread) (start_time : float) (k : nat)
  : Prop :=
  forall j, (1 <= j <= k)%nat ->
            gt (clock w j) (deadline self start_time) = false.

(** The loop has left, by a [break] or by an exception. *)
Definition left_loop (r : result status) : bool :=
  match r with
  | Ok Running => false
  | _ => true
  end.

(** A class that binds the two names [run] asks for besides the one
    the class body declares. *)
Definition declared_signals : signals :=
  "existsCountChanged" :: "timeout" :: class_signals.

(** Sample surroundings: a clock that advances one second per sleep, ... *)
Definition ticking (k : nat) : float := float_of_int (Z.of_nat k).

(** ... no file ever, ... *)
Definition nothing_exists : world :=
  {| path_exists := fun _ _ => false; clock := ticking |}.

(** ... ["/a"] and no other file, from the start, ... *)
Definition only_a_exists : world :=
  {| path_exists := fun _ p => String.eqb p "/a"; clock := ticking |}.

(** ... ["/a"] there while every sleep lasts a thousand seconds, ... *)
Definition slow_sleeps : world :=
  {| path_exists := fun _ p => String.eqb p "/a";
     clock := fun k => float_of_int (1000 * Z.of_nat k) |}.

(** ... and no file, with a start time to which 90 cannot be added
    exactly: the sum is the reading after the first sleep, which is
    larger than the start time plus 90. *)
Definition rounded_start : float := 0x1.99999999997ffp-4%float.

Definition first_reading : float := 0x1.6866666666666p+6%float.

Definition rounding : world :=
  {| path_exists := fun _ _ => false;
     clock := fun k => match k with
                       | O => rounded_start
                       | S O => first_reading
                       | S (S _) => float_of_int 1000
                       end |}.

End PreviewProcessorWatchThread.

(** ** [PreviewProcessorDialog.process] *)

Module PreviewProcessorDialog.

Import FindHttpPort PreviewProcessorWatchThread.
Local Open Scope string_scope.

(** What [process] reads from outside the module: the frame, the frame's
    log, the preview server and the XML parser.  [findall_text] is
    [[e.text for e in Et.fromstring(doc).findall("page/edit/element")]]. *)
Record env : Type := {
  frame_resource : string;
  aovs : bool;
  frame_log : result lines;                  (* lines 131-132 *)
  urlopen_read : string -> result string;    (* URL to [bytes] *)
  findall_text : string -> result (list string);
  mkstemp : string -> string -> string     (* suffix, prefix: the new name *)
}.

(** What [process] can change: the dialog's attributes, the progress bar,
    the application's thread list, and the outside (files, started
    threads, signal connections). *)
Record state : Type := {
  itvFile : option string;
  previewThread : option thread;
  progbar_range : Z * Z;
  app_threads : list thread;
  files : list (string * string);          (* name, contents *)
  started : list thread;
  connections : list (string * string)     (* signal, slot *)
}.

(** Lines 60-76: nothing watched, no playlist; Qt's default range. *)
Definition fresh : state :=
  {| itvFile := None; previewThread := None; progbar_range := (0, 100)%Z;
     app_threads := []; files := []; started := []; connections := [] |}.

(** What [fp.write] can be given. *)
Inductive document : Type :=
| Bytes (b : string)
| Str (s : string).

(** ["%d" % n] *)
Definition fmt_d (n : Z) : string :=
  DecimalString.NilZero.string_of_int (Z.to_int n).

(** Line 88: ["http://%s:%d%s" % (http_host, http_port, aovs)]. *)
Definition playlist_url (http_host : string) (http_port : Z) (aovs : string)
  : string :=
  "http://" ++ http_host ++ ":" ++ fmt_d http_port ++ aovs.

Section Process.

Variable cls : signals.
Variable e : env.

Definition D := M state.

(** [mkstemp] creates the file, empty; [open(name, "w")] keeps it so. *)
Definition create (name : string) : D unit :=
  modify (fun s =>
    {| itvFile := itvFile s; previewThread := previewThread s;
       progbar_range := progbar_range s; app_threads := app_threads s;
       files := files s ++ [(name, "")];
       started := started s; connections := connections s |}).

(** [fp.write(data)] on the file just created, open as text: a [str] is
    written, [bytes] are refused. *)
Definition fp_write (name : string) (data : document) : D unit :=
  match data with
  | Str text =>
      modify (fun s =>
        {| itvFile := itvFile s; previewThread := previewThread s;
           progbar_range := progbar_range s; app_threads := app_threads s;
           files := removelast (files s) ++ [(name, text)];
           started := started s; connections := connections s |})
  | Bytes _ => lift (Raise TypeError)
  end.

(** Lines 120-128: [fp.close()] of the [finally] lets the exception of
    [fp.write] pass. *)
Definition writePlaylist (data : document) : D string :=
  let name := mkstemp e ".itv" "playlist" in
  create name ;;
  fp_write name data ;;
  ret name.

Definition set_itvFile (name : string) : D unit :=
  modify (fun s =>
    {| itvFile := Some name; previewThread := previewThread s;
       progbar_range := progbar_range s; app_threads := app_threads s;
       files := files s; started := started s;
       connections := connections s |}).

Definition set_previewThread (t : thread) : D unit :=
  modify (fun s =>
    {| itvFile := itvFile s; previewThread := Some t;
       progbar_range := progbar_range s; app_threads := app_threads s;
       files := files s; started := started s;
       connections := connections s |}).

Definition app_threads_append (t : thread) : D unit :=
  modify (fun s =>
    {| itvFile := itvFile s; previewThread := previewThread s;
       progbar_range := progbar_range s;
       app_threads := app_threads s ++ [t];
       files := files s; started := started s;
       connections := connections s |}).

Definition start (t : thread) : D unit :=
  modify (fun s =>
    {| itvFile := itvFile s; previewThread := previewThread s;
       progbar_range := progbar_range s; app_threads := app_threads s;
       files := files s; started := started s ++ [t];
       connections := connections s |}).

Definition setRange (lo hi : Z) : D unit :=
  modify (fun s =>
    {| itvFile := itvFile s; previewThread := previewThread s;
       progbar_range := (lo, hi); app_threads := app_threads s;
       files := files s; started := started s;
       connections := connections s |}).

Definition connect (name slot : string) : D unit :=
  signal <- lift (getattr cls name) ;;
  modify (fun s =>
    {| itvFile := itvFile s; previewThread := previewThread s;
       progbar_range := progbar_range s; app_threads := app_threads s;
       files := files s; started := started s;
       connections := connections s ++ [(signal, slot)] |}).

(** Lines 78-102. *)
Definition process : D unit :=
  http_host <- lift (getitem (split "/" (frame_resource e)) 0) ;;
  http_port <- lift (findHttpPort (frame_log e)) ;;
  let aovs := if aovs e then "/aovs" else "" in
  playlist <- lift (urlopen_read e (playlist_url http_host http_port aovs)) ;;
  items <- lift (findall_text e playlist) ;;
  match items with
  | [] => ret tt
  | _ :: _ =>
      name <- writePlaylist (Bytes playlist) ;;
      set_itvFile name ;;
      let t := __init__ items in
      set_previewThread t ;;
      app_threads_append t ;;
      start t ;;
      setRange 0 (len items) ;;
      connect "existCountChanged" "updateProgressDialog" ;;
      connect "timeout" "processTimedOut"
  end.

End Process.

(** Sample surroundings: a frame on [host1] whose log announces port 9321
    and a server whose playlist lists [paths]. *)
Definition sample_env (paths : list string) : env :=
  {| frame_resource := "host1/1.0";
     aovs := false;
     frame_log :=
       Ok (Line (Text.text_of "Loading scene" ++ Text.nl)%list
             (Line (Text.text_of "Preview Server : 9321" ++ Text.nl)%list
                Eof));
     urlopen_read := fun url => Ok ("<playlist from " ++ url ++ ">");
     findall_text := fun _ => Ok paths;
     mkstemp := fun suffix prefix => "/tmp/" ++ prefix ++ "0001" ++ suffix |}.

End PreviewProcessorDialog.

(** ** The slots of the dialog (lines 104-117) *)

Module PreviewProcessorSlots.

Import PreviewProcessorWatchThread.
Local Open Scope string_scope.

(** What the slots change: the values handed to the progress bar, in
    order, whether the dialog has been closed, and the error boxes shown
    (title, text). *)
Record widget : Type := {
  setValue_calls : list Z;
  closed : bool;
  critical_boxes : list (string * string)
}.

(** Lines 104-109. *)
Definition updateProgressDialog (current max_progress : Z) (d : widget)
  : widget :=
  if negb (max_progress =? current)%Z then
    {| setValue_calls := (setValue_calls d ++ [current])%list;
       closed := closed d;
       critical_boxes := critical_boxes d |}
  else
    {| setValue_calls := setValue_calls d;
       closed := true;
       critical_boxes := critical_boxes d |}.

Definition timeout_box : string * string :=
  ("Preview Timeout",
   "Unable to preview images, timed out while waiting for images to be copied.").

(** Lines 111-117. *)
Definition processTimedOut (d : widget) : widget :=
  {| setValue_calls := setValue_calls d;
     closed := true;
     critical_boxes := (critical_boxes d ++ [timeout_box])%list |}.

(** A call of one of the two slots, as a signal connected at lines
    101-102 makes it. *)
Inductive call : Type :=
| UpdateProgress (current max_progress : Z)
| ProcessTimedOut.

Definition slot (d : widget) (c : call) : widget :=
  match c with
  | UpdateProgress current max_progress =>
      updateProgressDialog current max_progress d
  | ProcessTimedOut => processTimedOut d
  end.

(** The call answers a notification of the trace. *)
Definition backed (tr : list event) (c : call) : Prop :=
  match c with
  | UpdateProgress current max_progress =>
      exists e, In e tr /\ progress e = Some (current, max_progress)
  | ProcessTimedOut => exists e, In e tr /\ is_timeout e = true
  end.

(** The calls that close the dialog. *)
Definition closes (c : call) : bool :=
  match c with
  | UpdateProgress current max_progress => (max_progress =? current)%Z
  | ProcessTimedOut => true
  end.

Definition is_ProcessTimedOut (c : call) : bool :=
  match c with
  | ProcessTimedOut => true
  | _ => false
  end.

End PreviewProcessorSlots.

(** ** Notions for the traces of the watch thread *)

Module WatchThreadNotions.

Import PreviewProcessorWatchThread.
Local Open Scope string_scope.

(** No file that exists is gone after the next sleep. *)
Definition never_disappear (w : world) : Prop :=
  forall k p, path_exists w k p = true -> path_exists w (S k) p = true.

(** The counts of the progress notifications of a trace, in order. *)
Definition counts (tr : list event) : list Z := map fst (payloads tr).

(** The emissions of line 168 in a trace. *)
Definition is_first_emit (e : event) : bool :=
  match e with
  | EmitOldStyle "existCountChanged(int, int)" _ => true
  | _ => false
  end.

Definition count_first_emits (tr : list event) : nat :=
  length (filter is_first_emit tr).

Definition is_sleep (e : event) : bool :=
  match e with
  | Sleep _ => true
  | _ => false
  end.

(** The reports of line 168 and the sleeps take turns in the trace, which
    starts where a report is due ([report_due]) or where a sleep is; the
    other events are passed over. *)
Fixpoint alternate (report_due : bool) (tr : list event) : bool :=
  match tr with
  | [] => true
  | e :: rest =>
      if is_first_emit e then report_due && alternate false rest
      else if is_sleep e then negb report_due && alternate true rest
      else alternate report_due rest
  end.

(** The progress notifications of the trace all fall short of the total. *)
Definition incomplete (tr : list event) : Prop :=
  Forall (fun p => fst p <> snd p) (payloads tr).

(** A file that shows up after the second sleep, for examples. *)
Definition a_after_two_sleeps : world :=
  {| path_exists := fun k p => String.eqb p "/a" && (2 <=? k)%nat;
     clock := ticking |}.

End WatchThreadNotions.

(** * Properties *)

(** ** Port discovery *)

Module FindHttpPortFacts.

Import Text FindHttpPort.
Local Open Scope string_scope.
Local Open Scope list_scope.

(** Lines that do not announce the server are passed over, as long as
    the counter stays under 5000. *)
Lemma scan_skip (before : list text) (rest : lines) :
  forall counter : Z,
    (counter + Z.of_nat (length before) < 5000)%Z ->
    Forall no_server before ->
    scan counter (prepend before rest)
    = scan (counter + Z.of_nat (length before)) rest.
Proof.
  induction before as [|l before IH]; intros counter Hlen Hbefore;
    cbn [prepend length].
  - f_equal. cbn. lia.
  - inversion Hbefore as [|? ? Hl Hbefore']; subst.
    cbn [length] in Hlen. rewrite Nat2Z.inj_succ in *.
    cbn [scan].
    destruct (Z.leb_spec 5000 (counter + 1)) as [Hge|Hlt]; [lia|].
    unfold no_server in Hl. rewrite Hl.
    rewrite IH by (try assumption; lia).
    f_equal. lia.
Qed.

(** The first announcing line decides, when at most 4998 lines precede
    it, whatever comes after it. *)
Lemma scan_first_match (before : list text) (line : text) (later : lines) :
  (length before < 4999)%nat ->
  Forall no_server before ->
  startswith line Preview_Server = true ->
  findHttpPort (Ok (prepend before (Line line later))) = port_of_line line.
Proof.
  intros Hlen Hbefore Hline. unfold findHttpPort.
  rewrite scan_skip by (try assumption; lia).
  cbn [scan].
  destruct (Z.leb_spec 5000 (0 + Z.of_nat (length before) + 1)) as [Hge|Hlt];
    [lia|].
  now rewrite Hline.
Qed.

(** Without an announcing line among those examined, a file read to its
    end makes the scan raise. *)
Lemma scan_no_match (log : list text) :
  forall counter : Z,
    (0 <= counter)%Z ->
    Forall no_server (firstn (Z.to_nat (4999 - counter)) log) ->
    scan counter (prepend log Eof) = Raise PortNotFound.
Proof.
  induction log as [|l log IH]; intros counter Hc Hall; cbn [prepend scan].
  - reflexivity.
  - destruct (Z.leb_spec 5000 (counter + 1)) as [Hge|Hlt]; [reflexivity|].
    replace (Z.to_nat (4999 - counter))
      with (S (Z.to_nat (4999 - (counter + 1)))) in Hall by lia.
    cbn [firstn] in Hall.
    inversion Hall as [|? ? Hl Hall']; subst.
    unfold no_server in Hl. rewrite Hl.
    apply IH; [lia|assumption].
Qed.

Lemma Forall_firstn_le {A} (P : A -> Prop) (n m : nat) (l : list A) :
  (n <= m)%nat -> Forall P (firstn m l) -> Forall P (firstn n l).
Proof.
  intros Hnm H.
  rewrite <- (Nat.min_l n m Hnm), <- firstn_firstn.
  rewrite Forall_forall in *. intros x Hx. apply H.
  rewrite <- (firstn_skipn n (firstn m l)).
  apply in_or_app. now left.
Qed.

(** The 5000th line ends the scan, whatever it holds and whatever
    follows it. *)
Lemma scan_line_5000 (before : list text) (line : text) (rest : lines) :
  length before = 4999%nat ->
  Forall no_server before ->
  findHttpPort (Ok (prepend before (Line line rest))) = Raise PortNotFound.
Proof.
  intros Hlen Hbefore. unfold findHttpPort.
  rewrite scan_skip by (try assumption; lia).
  cbn [scan]. rewrite Hlen. reflexivity.
Qed.

(** An exception of the iteration met by the scan leaves with it. *)
Lemma scan_fail (before : list text) (e : exn) :
  (length before < 5000)%nat ->
  Forall no_server before ->
  findHttpPort (Ok (prepend before (Fail e))) = Raise e.
Proof.
  intros Hlen Hbefore. unfold findHttpPort.
  now rewrite scan_skip by (try assumption; lia).
Qed.

Lemma split_no_sep (c : N) (s : text) :
  contains c s = false -> split c s = [s].
Proof.
  unfold contains.
  induction s as [|a s IH]; cbn [existsb split]; [reflexivity|].
  intros H. apply orb_false_iff in H as [Ha Hs].
  rewrite N.eqb_sym, Ha, IH by assumption. reflexivity.
Qed.

Lemma split_at_first (c : N) (head rest : text) :
  contains c head = false ->
  split c (head ++ c :: rest) = head :: split c rest.
Proof.
  unfold contains.
  induction head as [|a head IH]; cbn [existsb split app].
  - intros _. now rewrite N.eqb_refl.
  - intros H. apply orb_false_iff in H as [Ha Hs].
    rewrite N.eqb_sym, Ha, IH by assumption. reflexivity.
Qed.

(** The port is read between the first colon and the second, if any. *)
Lemma port_of_line_field (head field : text) :
  contains 58 head = false ->
  contains 58 field = false ->
  port_of_line (head ++ 58%N :: field) = int (strip field).
Proof.
  intros Hhead Hfield. unfold port_of_line.
  now rewrite split_at_first, split_no_sep by assumption.
Qed.

Lemma port_of_line_field_colon (head field rest : text) :
  contains 58 head = false ->
  contains 58 field = false ->
  port_of_line (head ++ 58%N :: field ++ 58%N :: rest) = int (strip field).
Proof.
  intros Hhead Hfield. unfold port_of_line.
  now rewrite !split_at_first by assumption.
Qed.

(** C5 (amended): the scan follows what the iteration of the log yields,
    line by line.  When the first line that starts with "Preview Server"
    is among the first 4999 lines and an integer stands between its first
    colon and the next, that integer is returned (9321 for
    "Preview Server : 9321"), whatever comes after the line.  When the
    file is read to its end, or to its 5000th line, without an exception
    and none of the first 4999 lines starts with "Preview Server", the
    explicit exception of line 144 is raised.  The exception of [open],
    or one the iteration raises before such a line is met within the
    first 5000 lines, is raised instead. *)
Theorem findHttpPort_first_announcement :
  (forall before line later port,
      (length before < 4999)%nat ->
      Forall no_server before ->
      startswith line Preview_Server = true ->
      port_of_line line = Ok port ->
      findHttpPort (Ok (prepend before (Line line later))) = Ok port)
  /\ (forall log,
         Forall no_server (firstn 5000 log) ->
         findHttpPort (Ok (prepend log Eof)) = Raise PortNotFound)
  /\ (forall before line rest,
         length before = 4999%nat ->
         Forall no_server before ->
         findHttpPort (Ok (prepend before (Line line rest)))
         = Raise PortNotFound)
  /\ (forall e, findHttpPort (Raise e) = Raise e)
  /\ (forall before e,
         (length before < 5000)%nat ->
         Forall no_server before ->
         findHttpPort (Ok (prepend before (Fail e))) = Raise e)
  /\ (forall head field,
         contains 58 head = false ->
         contains 58 field = false ->
         port_of_line (head ++ 58%N :: field) = int (strip field))
  /\ (forall head field rest,
         contains 58 head = false ->
         contains 58 field = false ->
         port_of_line (head ++ 58%N :: field ++ 58%N :: rest)
         = int (strip field))
  /\ port_of_line (text_of "Preview Server : 9321" ++ nl) = Ok 9321%Z.
Proof.
  repeat apply conj.
  - intros before line later port Hlen Hbefore Hline Hport.
    now rewrite scan_first_match.
  - intros log Hnone. apply scan_no_match; [lia|].
    apply Forall_firstn_le with (m := 5000%nat); [cbn; lia|assumption].
  - intros before line rest. apply scan_line_5000.
  - reflexivity.
  - intros before e. apply scan_fail.
  - exact port_of_line_field.
  - exact port_of_line_field_colon.
  - vm_compute. reflexivity.
Qed.

Lemma findHttpPort_first_announcement_witness :
  findHttpPort
    (Ok (prepend [text_of "Loading scene" ++ nl]
           (Line (text_of "Preview Server : 9321" ++ nl)
              (Fail UnicodeDecodeError))))
  = Ok 9321%Z
  /\ findHttpPort
       (Ok (prepend [text_of "Loading scene" ++ nl; text_of "Rendering" ++ nl]
              Eof))
     = Raise PortNotFound
  /\ findHttpPort
       (Ok (prepend (repeat nl 4999)
              (Line (text_of "Preview Server : 9321" ++ nl) Eof)))
     = Raise PortNotFound
  /\ findHttpPort
       (Ok (prepend [text_of "Loading scene" ++ nl] (Fail UnicodeDecodeError)))
     = Raise UnicodeDecodeError
  /\ port_of_line (text_of "Preview Server " ++ 58%N :: text_of " 9321 ")
     = int (strip (text_of " 9321 "))
  /\ port_of_line
       (text_of "Preview Server " ++ 58%N :: text_of " 9321 "
        ++ 58%N :: text_of "x")
     = int (strip (text_of " 9321 ")).
Proof.
  destruct findHttpPort_first_announcement
    as (Hfound & Hnone & H5000 & _ & Hfail & Hfield & Hcolon & _).
  repeat apply conj.
  - apply (Hfound [text_of "Loading scene" ++ nl]).
    + cbn; lia.
    + repeat constructor.
    + reflexivity.
    + vm_compute. reflexivity.
  - apply (Hnone [text_of "Loading scene" ++ nl; text_of "Rendering" ++ nl]).
    repeat constructor.
  - apply H5000.
    + apply repeat_length.
    + apply Forall_forall. intros l Hl.
      apply repeat_spec in Hl. now subst l.
  - apply (Hfail [text_of "Loading scene" ++ nl]).
    + cbn; lia.
    + repeat constructor.
  - apply Hfield; reflexivity.
  - apply Hcolon; reflexivity.
Defined.

(** The bound is sharp: an announcement on line 4999 is still found. *)
Example findHttpPort_line_4999 :
  findHttpPort
    (Ok (prepend (repeat nl 4998)
           (Line (text_of "Preview Server : 9321" ++ nl) Eof)))
  = Ok 9321%Z.
Proof. vm_compute. reflexivity. Qed.

Example port_of_line_not_a_number :
  port_of_line (text_of "Preview Server: none" ++ nl) = Raise ValueError.
Proof. vm_compute. reflexivity. Qed.

(** C5 as stated fails three times over: an announcement on line 5000 is
    not examined, since the counter is compared with 5000 before the line
    is looked at; an announcement without a colon makes line 140 raise
    [IndexError], which is neither a port nor the exception of line 144;
    and a log whose first block cannot be decoded makes the iteration
    raise [UnicodeDecodeError], whether a line of it announces the server
    or none does. *)
Lemma findHttpPort_counterexample :
  findHttpPort
    (Ok (prepend (repeat nl 4999)
           (Line (text_of "Preview Server : 9321" ++ nl) Eof)))
  = Raise PortNotFound
  /\ findHttpPort (Ok (Line (text_of "Preview Server" ++ nl) Eof))
     = Raise IndexError
  /\ findHttpPort (Ok (Fail UnicodeDecodeError)) = Raise UnicodeDecodeError.
Proof. repeat apply conj; vm_compute; reflexivity. Qed.

End FindHttpPortFacts.
(** ** The polling loop *)

Module WatchThreadFacts.

Import PreviewProcessorWatchThread.
Local Open Scope string_scope.
Local Open Scope list_scope.

Lemma getattr_name (cls : signals) (name found : string) :
  getattr cls name = Ok found -> found = name.
Proof.
  unfold getattr. destruct (existsb _ cls); congruence.
Qed.

Lemma getattr_class_signals_existsCountChanged :
  getattr class_signals "existsCountChanged"
  = Raise (AttributeError "existsCountChanged").
Proof. reflexivity. Qed.

Lemma getattr_class_signals_timeout :
  getattr class_signals "timeout" = Raise (AttributeError "timeout").
Proof. reflexivity. Qed.

Section Pass.

Variable cls : signals.
Variable w : world.
Variable self : thread.

(** The comprehension of line 167 reads the file system and leaves the
    state alone. *)
Lemma filterM_os_path_exists (l : list string) (s : run_state) :
  filterM (os_path_exists w) l s = (Ok (filter (path_exists w (sleeps s)) l), s).
Proof.
  induction l as [|p l IH]; cbn [filterM filter]; [reflexivity|].
  unfold bind at 1. unfold os_path_exists at 1, gets.
  unfold bind at 1. rewrite IH. unfold ret.
  now destruct (path_exists w (sleeps s) p).
Qed.

(** What a pass does, case by case. *)
Lemma pass_cases (t0 : float) (s : run_state) :
  pass cls w self t0 s =
  match getattr cls "existsCountChanged" with
  | Raise e => (Raise e, after s 0 [first_emit w self s])
  | Ok _ =>
      if (existing_count w (sleeps s) (items self) =? len (items self))%Z
      then (Ok Completed, after s 0 [first_emit w self s; second_emit w self s])
      else if gt (clock w (S (sleeps s))) (deadline self t0)
      then match getattr cls "timeout" with
           | Raise e =>
               (Raise e, after s 1 [first_emit w self s; second_emit w self s; Sleep 1])
           | Ok _ =>
               (Ok TimedOut,
                after s 1 [first_emit w self s; second_emit w self s; Sleep 1;
                           EmitSignal "timeout" [];
                           Warning "Timed out waiting for preview server."])
           end
      else (Ok Running, after s 1 [first_emit w self s; second_emit w self s; Sleep 1])
  end.
Proof.
  unfold pass. unfold bind at 1. rewrite filterM_os_path_exists.
  fold (existing_count w (sleeps s) (items self)).
  unfold emit, signal_emit, record, time_sleep, time_time, after,
    first_emit, second_emit.
  destruct (getattr cls "existsCountChanged") as [nm|e] eqn:E1.
  - apply getattr_name in E1. subst nm.
    unfold bind, modify, lift, gets, ret. cbn [sleeps trace].
    destruct (existing_count w (sleeps s) (items self) =? len (items self))%Z.
    + now rewrite <- !app_assoc.
    + cbn [sleeps trace].
      destruct (gt (clock w (S (sleeps s))) (deadline self t0)).
      * destruct (getattr cls "timeout") as [nm|e] eqn:E2.
        -- apply getattr_name in E2. subst nm. cbn [sleeps trace].
           now rewrite <- !app_assoc.
        -- cbn [sleeps trace]. now rewrite <- !app_assoc.
      * now rewrite <- !app_assoc.
  - unfold bind, modify, lift, gets, ret. reflexivity.
Qed.

Lemma count_sleeps_app (tr tr' : list event) :
  count_sleeps (tr ++ tr') = (count_sleeps tr + count_sleeps tr')%nat.
Proof.
  unfold count_sleeps. now rewrite filter_app, length_app.
Qed.

Lemma ticks_ok_app (tr tr' : list event) :
  forall k,
    ticks_ok w self k tr ->
    ticks_ok w self (count_sleeps tr + k) tr' ->
    ticks_ok w self k (tr ++ tr').
Proof.
  induction tr as [|e tr IH]; intros k Htr Htr'; [assumption|].
  destruct e; cbn [app ticks_ok] in *;
    try (destruct Htr as [He Htr]; split; [exact He|]; now apply IH).
  apply IH; [assumption|].
  unfold count_sleeps in *. cbn [filter length] in Htr'.
  now rewrite Nat.add_succ_r.
Qed.

Lemma after_after (s : run_state) (d d' : nat) (evs evs' : list event) :
  after (after s d evs) d' evs' = after s (d' + d) (evs ++ evs').
Proof.
  unfold after. cbn [sleeps trace]. now rewrite Nat.add_assoc, app_assoc.
Qed.

Lemma progress_first_emit (s : run_state) :
  progress (first_emit w self s)
  = Some (existing_count w (sleeps s) (items self), len (items self)).
Proof. reflexivity. Qed.

Lemma progress_second_emit (s : run_state) :
  progress (second_emit w self s)
  = Some (existing_count w (sleeps s) (items self), len (items self)).
Proof. reflexivity. Qed.

(** A pass appends events to the trace, the first of which is the
    progress notification of line 168; the sleeps are all recorded and
    every progress notification carries the payload of its tick. *)
Lemma pass_after (t0 : float) (s : run_state) :
  exists d evs,
    snd (pass cls w self t0 s) = after s d (first_emit w self s :: evs)
    /\ count_sleeps (first_emit w self s :: evs) = d
    /\ ticks_ok w self (sleeps s) (first_emit w self s :: evs).
Proof.
  rewrite pass_cases.
  destruct (getattr cls "existsCountChanged");
    [destruct (_ =? _)%Z;
     [|destruct (gt _ _); [destruct (getattr cls "timeout")|]]|];
    cbn [snd]; eexists _, _; (split; [reflexivity|]);
    (split; [reflexivity|]);
    unfold first_emit, second_emit; cbn [ticks_ok progress is_timeout];
    tauto.
Qed.

Lemma after_nil (s : run_state) : after s 0 [] = s.
Proof.
  destruct s. unfold after. cbn [sleeps trace]. now rewrite app_nil_r.
Qed.

Lemma loop_S (t0 : float) (n : nat) (s : run_state) :
  loop cls w self t0 (S n) s =
  match pass cls w self t0 s with
  | (Ok Running, s') => loop cls w self t0 n s'
  | (Ok st, s') => (Ok st, s')
  | (Raise e, s') => (Raise e, s')
  end.
Proof.
  cbn [loop]. unfold bind.
  destruct (pass cls w self t0 s) as [[[]|e] s']; reflexivity.
Qed.

Lemma run_loop (n : nat) :
  run cls w self n initial = loop cls w self (clock w 0) n initial.
Proof. reflexivity. Qed.

(** The same for the passes of a loop, however it ends or is cut. *)
Lemma loop_after (t0 : float) (n : nat) :
  forall s,
  exists d evs,
    snd (loop cls w self t0 n s) = after s d evs
    /\ count_sleeps evs = d
    /\ ticks_ok w self (sleeps s) evs.
Proof.
  induction n as [|n IH]; intros s.
  - exists 0%nat, []. cbn [loop ret snd]. rewrite after_nil.
    repeat split.
  - rewrite loop_S.
    destruct (pass_after t0 s) as (d & evs & Hs & Hd & Hok).
    destruct (pass cls w self t0 s) as [[[]|e] s']; cbn [snd] in *; subst s'.
    2-4: now exists d, (first_emit w self s :: evs).
    destruct (IH (after s d (first_emit w self s :: evs)))
      as (d' & evs' & Hs' & Hd' & Hok').
    exists (d' + d)%nat, ((first_emit w self s :: evs) ++ evs').
    rewrite Hs', after_after. split; [reflexivity|]. split.
    + rewrite count_sleeps_app. lia.
    + apply ticks_ok_app; [assumption|].
      now rewrite Hd.
Qed.

(** A loop that makes a pass at all starts with the notification of
    line 168. *)
Lemma loop_S_first (t0 : float) (n : nat) (s : run_state) :
  exists rest,
    trace (snd (loop cls w self t0 (S n) s))
    = trace s ++ first_emit w self s :: rest.
Proof.
  rewrite loop_S.
  destruct (pass_after t0 s) as (d & evs & Hs & _ & _).
  destruct (pass cls w self t0 s) as [[[]|e] s']; cbn [snd] in *; subst s'.
  2-4: now exists evs.
  destruct (loop_after t0 n (after s d (first_emit w self s :: evs)))
    as (d' & evs' & Hs' & _ & _).
  exists (evs ++ evs'). rewrite Hs', after_after.
  reflexivity.
Qed.

Lemma existing_count_bounds (k : nat) (l : list string) :
  (0 <= existing_count w k l <= len l)%Z.
Proof.
  unfold existing_count, len.
  pose proof (filter_length_le (path_exists w k) l). lia.
Qed.

(** Payloads that agree with the file system are within bounds. *)
Lemma ticks_ok_bounds (tr : list event) :
  forall k,
    ticks_ok w self k tr ->
    Forall (fun e => forall current total,
                progress e = Some (current, total) ->
                (0 <= current <= total)%Z /\ total = len (items self)) tr.
Proof.
  induction tr as [|e tr IH]; intros k Hok; constructor.
  - intros current total He.
    destruct e; cbn [ticks_ok] in Hok;
      try (destruct Hok as [Hp _]; rewrite He in Hp;
           injection Hp as -> ->;
           split; [apply existing_count_bounds|reflexivity]).
    discriminate He.
  - destruct e; cbn [ticks_ok] in Hok; try (destruct Hok as [_ Hok]);
      eapply IH; eassumption.
Qed.


(** Once the loop has left, more passes change nothing. *)
Lemma loop_stable (t0 : float) (n d : nat) :
  forall s,
    fst (loop cls w self t0 n s) <> Ok Running ->
    loop cls w self t0 (n + d) s = loop cls w self t0 n s.
Proof.
  induction n as [|n IH]; intros s Hleft.
  - now elim Hleft.
  - cbn [Nat.add]. rewrite !loop_S in *.
    destruct (pass cls w self t0 s) as [[[]|e] s']; try reflexivity.
    now apply IH.
Qed.


End Pass.

(** *** The class as written

    [existsCountChanged] is bound neither by the class body, which
    declares [existCountChanged], nor by [QThread]: line 169 raises in the
    first pass, after the emission of line 168. *)
Lemma run_class_signals (w : world) (self : thread) (n : nat) :
  run class_signals w self (S n) initial
  = (Raise (AttributeError "existsCountChanged"),
     {| sleeps := 0;
        trace := [EmitOldStyle "existCountChanged(int, int)"
                    [existing_count w 0 (items self); len (items self)]] |}).
Proof.
  rewrite run_loop, loop_S, pass_cases.
  now rewrite getattr_class_signals_existsCountChanged.
Qed.

(** *** Progress notifications *)

(** C1: at each tick the poller counts the paths of its list that exist at
    that moment and emits a progress notification that carries that count
    and the length of the list: a pass begins so, every progress
    notification of a run carries the payload of its tick, and for
    ["/a"; "/b"] with only ["/a"] present at the first tick the first
    progress notification is [(1, 2)]. *)
Theorem run_emits_existing_count :
  (forall cls w self t0 s,
      exists rest,
        trace (snd (pass cls w self t0 s))
        = trace s
          ++ EmitOldStyle "existCountChanged(int, int)"
               [existing_count w (sleeps s) (items self); len (items self)]
          :: rest)
  /\ (forall cls w self n,
         ticks_ok w self 0 (trace (snd (run cls w self n initial))))
  /\ (forall cls w n,
         path_exists w 0 "/a" = true ->
         path_exists w 0 "/b" = false ->
         hd_error (payloads (trace (snd (run cls w (__init__ ["/a"; "/b"])
                                           (S n) initial))))
         = Some (1, 2)%Z).
Proof.
  split; [|split].
  - intros cls w self t0 s.
    destruct (pass_after cls w self t0 s) as (d & evs & Hs & _ & _).
    exists evs. now rewrite Hs.
  - intros cls w self n. rewrite run_loop.
    destruct (loop_after cls w self (clock w 0) n initial)
      as (d & evs & Hs & _ & Hok).
    now rewrite Hs.
  - intros cls w n Ha Hb. rewrite run_loop.
    destruct (loop_S_first cls w (__init__ ["/a"; "/b"]) (clock w 0) n initial)
      as (rest & Htr).
    rewrite Htr. cbn [initial trace app payloads].
    rewrite progress_first_emit. cbn [hd_error initial sleeps].
    unfold existing_count. cbn [__init__ items filter].
    now rewrite Ha, Hb.
Qed.

Lemma run_emits_existing_count_witness :
  hd_error (payloads (trace (snd (run class_signals only_a_exists
                                    (__init__ ["/a"; "/b"]) 1 initial))))
  = Some (1, 2)%Z.
Proof.
  apply (proj2 (proj2 run_emits_existing_count)); reflexivity.
Defined.

(** C7: every progress notification of a run, whichever files exist,
    carries a count between zero and the total, and the total is the
    length of the item list. *)
Theorem run_count_within_total (cls : signals) (w : world) (self : thread)
  (n : nat) :
  Forall (fun e => match progress e with
                   | Some (current, total) =>
                       (0 <= current <= total)%Z /\ total = len (items self)
                   | None => True
                   end)
         (trace (snd (run cls w self n initial))).
Proof.
  rewrite run_loop.
  destruct (loop_after cls w self (clock w 0) n initial)
    as (d & evs & Hs & _ & Hok).
  rewrite Hs. cbn [after initial trace app].
  apply ticks_ok_bounds in Hok.
  eapply Forall_impl; [|exact Hok].
  intros e He. cbn beta in He.
  destruct (progress e) as [[current total]|]; [|exact I].
  now apply He.
Qed.

(** *** The deadline *)



(** With the two signals bound, no file and a clock that reads whole
    seconds, the poller for one item times out after the 91st sleep, the
    first to end after 90 seconds. *)
Example run_times_out_after_91_sleeps :
  let r := run declared_signals nothing_exists (__init__ ["/a"]) 91 initial in
  fst r = Ok TimedOut /\ sleeps (snd r) = 91%nat
  /\ fst (run declared_signals nothing_exists (__init__ ["/a"]) 90 initial)
     = Ok Running.
Proof. vm_compute. repeat split. Qed.

(** *** Termination *)

(** C9: the class as written never leaves the loop by line 171 or by
    line 176, whatever the items, the files, the clock and the number of
    passes; with one item that never exists it leaves in its first pass,
    before any sleep, by the [AttributeError] of line 169: the bound of
    [61 + 30 * N] passes plays no part. *)
Theorem run_leaves_by_exception :
  (forall w self n,
      fst (run class_signals w self n initial) <> Ok Completed
      /\ fst (run class_signals w self n initial) <> Ok TimedOut)
  /\ forall n,
       run class_signals nothing_exists (__init__ ["/a"]) (S n) initial
       = (Raise (AttributeError "existsCountChanged"),
          {| sleeps := 0;
             trace := [EmitOldStyle "existCountChanged(int, int)"
                         [0; 1]%Z] |}).
Proof.
  split.
  - intros w self [|n]; [split; discriminate|].
    rewrite run_class_signals. split; discriminate.
  - intros n. now rewrite run_class_signals.
Qed.

(** *** Where the class as written stops short

    Each of the next four statements evaluates [run] (or [pass]) with the
    signals of the class as written; they all come from the unbound name
    of line 169. *)

(** C2: with its one item present from the start the poller emits the
    progress notification [(1, 1)] without sleeping and then raises
    [AttributeError]: it does not leave through the [break] of line 171. *)
Theorem run_all_present_raises (n : nat) :
  run class_signals only_a_exists (__init__ ["/a"]) (S n) initial
  = (Raise (AttributeError "existsCountChanged"),
     {| sleeps := 0;
        trace := [EmitOldStyle "existCountChanged(int, int)" [1; 1]%Z] |}).
Proof. now rewrite run_class_signals. Qed.

(** C3: with its one item never there the poller emits the progress
    notification [(0, 1)] and raises [AttributeError] in the first pass:
    it neither sleeps nor ever emits the timeout notification. *)
Theorem run_nothing_present_raises (n : nat) :
  let r := run class_signals nothing_exists (__init__ ["/a"]) (S n) initial in
  r = (Raise (AttributeError "existsCountChanged"),
       {| sleeps := 0;
          trace := [EmitOldStyle "existCountChanged(int, int)" [0; 1]%Z] |})
  /\ existsb is_timeout (trace (snd r)) = false.
Proof. cbn zeta. now rewrite run_class_signals. Qed.

(** C8: the last notification of that run, which has left the loop, is the
    progress notification [(0, 1)]: neither one with [current = total] nor
    the timeout. *)
Theorem run_last_notification_not_final (n : nat) :
  let r := run class_signals nothing_exists (__init__ ["/a"]) (S n) initial in
  let last_notification :=
    last (filter is_notification (trace (snd r))) (Sleep 0) in
  left_loop (fst r) = true
  /\ progress last_notification = Some (0, 1)%Z
  /\ is_final last_notification = false.
Proof. cbn zeta. now rewrite run_class_signals. Qed.

(** C10: a pass in which the one item is present, started in any state
    and with any start time, emits [(1, 1)] and raises [AttributeError]
    before the comparison of line 170: the timeout is not emitted, and
    the loop is not left through the [break] of line 171 either. *)
Theorem pass_all_present_raises (start_time : float) (s : run_state) :
  pass class_signals slow_sleeps (__init__ ["/a"]) start_time s
  = (Raise (AttributeError "existsCountChanged"),
     after s 0 [EmitOldStyle "existCountChanged(int, int)" [1; 1]%Z]).
Proof.
  now rewrite pass_cases, getattr_class_signals_existsCountChanged.
Qed.

(** *** The loop once both names are bound

    What [run] does for a class whose instances bind [existsCountChanged]
    and [timeout] to signals: the behaviour lines 170-176 are written
    for. *)

Lemma declared_signals_bind :
  getattr declared_signals "existsCountChanged" = Ok "existsCountChanged"
  /\ getattr declared_signals "timeout" = Ok "timeout".
Proof. split; reflexivity. Qed.

Section Declared.

Variable cls : signals.
Variable w : world.
Variable self : thread.
Hypothesis Hprogress : getattr cls "existsCountChanged" = Ok "existsCountChanged".
Hypothesis Htimeout : getattr cls "timeout" = Ok "timeout".

Lemma existing_count_all (k : nat) (l : list string) :
  (forall p, In p l -> path_exists w k p = true) ->
  existing_count w k l = len l.
Proof.
  intros Hall. unfold existing_count. f_equal.
  apply forallb_filter_id, forallb_forall. exact Hall.
Qed.

Lemma existing_count_none (k : nat) (l : list string) :
  (forall p, In p l -> path_exists w k p = false) ->
  existing_count w k l = 0%Z.
Proof.
  intros Hnone. unfold existing_count.
  induction l as [|p l IH]; [reflexivity|].
  cbn [filter]. rewrite Hnone by now left.
  apply IH. intros q Hq. apply Hnone. now right.
Qed.

(** Completion comes first: a pass that finds every item leaves through
    line 171 without sleeping or reading the clock, whatever the time. *)
Lemma declared_pass_completed (t0 : float) (s : run_state) :
  existing_count w (sleeps s) (items self) = len (items self) ->
  pass cls w self t0 s
  = (Ok Completed, after s 0 [first_emit w self s; second_emit w self s]).
Proof.
  intros Hall. rewrite pass_cases, Hprogress, Hall.
  now rewrite Z.eqb_refl.
Qed.

(** With every item present from the start the run is over after the
    two emissions of the first pass. *)
Lemma declared_run_all_present (n : nat) :
  (forall p, In p (items self) -> path_exists w 0 p = true) ->
  run cls w self (S n) initial
  = (Ok Completed,
     after initial 0 [first_emit w self initial; second_emit w self initial]).
Proof.
  intros Hall. rewrite run_loop, loop_S, declared_pass_completed; [reflexivity|].
  now apply existing_count_all.
Qed.

(** A loop that has left ends on a final notification. *)
Lemma declared_last_notification_final (t0 : float) (n : nat) :
  forall s,
    left_loop (fst (loop cls w self t0 n s)) = true ->
    exists before e,
      filter is_notification (trace (snd (loop cls w self t0 n s)))
      = before ++ [e]
      /\ is_final e = true.
Proof.
  induction n as [|n IH]; intros s Hleft; [discriminate Hleft|].
  rewrite loop_S in *. rewrite pass_cases, Hprogress, Htimeout in *.
  destruct (Z.eqb_spec (existing_count w (sleeps s) (items self))
              (len (items self))) as [Heq|Hne].
  - exists (filter is_notification (trace s) ++ [first_emit w self s]),
      (second_emit w self s).
    cbn [snd after trace]. rewrite filter_app, <- app_assoc. split.
    + reflexivity.
    + unfold is_final, second_emit. cbn [progress]. now apply Z.eqb_eq.
  - destruct (gt _ _).
    + exists (filter is_notification (trace s)
              ++ [first_emit w self s; second_emit w self s]),
        (EmitSignal "timeout" []).
      cbn [snd after trace]. rewrite filter_app, <- app_assoc. now split.
    + now apply IH.
Qed.

(** Without completion the loop goes on or times out, and the timeout
    notification is then the last thing emitted. *)
Lemma declared_loop_never_complete (t0 : float) (n : nat) :
  (forall k, existing_count w k (items self) <> len (items self)) ->
  forall s,
    match loop cls w self t0 n s with
    | (Ok Running, _) => True
    | (Ok TimedOut, s') =>
        exists before,
          trace s' = before ++ [EmitSignal "timeout" [];
                                Warning "Timed out waiting for preview server."]
    | _ => False
    end.
Proof.
  intros Hnever. induction n as [|n IH]; intros s; [exact I|].
  rewrite loop_S. rewrite pass_cases, Hprogress, Htimeout.
  destruct (Z.eqb_spec (existing_count w (sleeps s) (items self))
              (len (items self))) as [Heq|Hne]; [now elim (Hnever (sleeps s))|].
  destruct (gt _ _).
  - exists (trace s ++ [first_emit w self s; second_emit w self s; Sleep 1]).
    cbn [after trace]. now rewrite <- app_assoc.
  - apply IH.
Qed.

Lemma ticks_ok_never_complete (tr : list event) :
  (forall k, existing_count w k (items self) <> len (items self)) ->
  forall k,
    ticks_ok w self k tr ->
    Forall (fun p => fst p <> snd p) (payloads tr).
Proof.
  intros Hnever. induction tr as [|e tr IH]; intros k Hok; [constructor|].
  destruct e; cbn [ticks_ok] in Hok; cbn [payloads];
    try (destruct Hok as [He Hok];
         destruct (progress _) as [p|];
         [constructor; [subst p; apply Hnever|]|]);
    eapply IH; eassumption.
Qed.

(** Until the clock is beyond the deadline a loop that finds no item
    goes on; it times out at the first sleep that ends beyond it. *)
Lemma declared_loop_times_out (t0 : float) (k m : nat) :
  (forall j, existing_count w j (items self) <> len (items self)) ->
  within w self t0 k ->
  gt (clock w (S k)) (deadline self t0) = true ->
  forall d s,
    (sleeps s + d = k)%nat ->
    fst (loop cls w self t0 (S d + m) s) = Ok TimedOut
    /\ sleeps (snd (loop cls w self t0 (S d + m) s)) = S k.
Proof.
  intros Hnever Hin Hlate.
  induction d as [|d IH]; intros s Hs; cbn [Nat.add];
    rewrite loop_S, pass_cases, Hprogress, Htimeout;
    (destruct (Z.eqb_spec (existing_count w (sleeps s) (items self))
                 (len (items self))) as [Heq|_];
     [now elim (Hnever (sleeps s))|]).
  - replace (sleeps s) with k by lia. rewrite Hlate.
    cbn [fst snd after sleeps]. split; [reflexivity|lia].
  - rewrite (Hin (S (sleeps s))) by lia.
    apply IH. cbn [after sleeps]. lia.
Qed.

Lemma declared_loop_goes_on (t0 : float) (k : nat) :
  (forall j, existing_count w j (items self) <> len (items self)) ->
  within w self t0 k ->
  forall n s,
    (sleeps s + n <= k)%nat ->
    fst (loop cls w self t0 n s) = Ok Running.
Proof.
  intros Hnever Hin.
  induction n as [|n IH]; intros s Hs; [reflexivity|].
  rewrite loop_S, pass_cases, Hprogress, Htimeout.
  destruct (Z.eqb_spec (existing_count w (sleeps s) (items self))
              (len (items self))) as [Heq|_];
    [now elim (Hnever (sleeps s))|].
  rewrite (Hin (S (sleeps s))) by lia.
  apply IH. cbn [after sleeps]. lia.
Qed.

(** With no item ever present the run times out: at the first sleep after
    which the reading of the clock is beyond the deadline, with the
    timeout notification last, and without any progress notification
    whose count equals the total. *)
Lemma declared_never_present_times_out (k m : nat) :
  items self <> [] ->
  (forall j p, In p (items self) -> path_exists w j p = false) ->
  within w self (clock w 0) k ->
  gt (clock w (S k)) (deadline self (clock w 0)) = true ->
  let r := run cls w self (S k + m) initial in
  fst r = Ok TimedOut
  /\ sleeps (snd r) = S k
  /\ (exists before,
         trace (snd r)
         = before ++ [EmitSignal "timeout" [];
                      Warning "Timed out waiting for preview server."])
  /\ Forall (fun p => fst p <> snd p) (payloads (trace (snd r))).
Proof.
  intros Hitems Hnone Hin Hlate r. subst r. rewrite run_loop.
  assert (Hnever : forall j,
             existing_count w j (items self) <> len (items self)).
  { intros j. rewrite existing_count_none by (intros p; apply Hnone).
    unfold len. destruct (items self); [now elim Hitems|cbn [length]; lia]. }
  destruct (@declared_loop_times_out (clock w 0) k m Hnever Hin Hlate k initial)
    as [Hout Hsleeps]; [reflexivity|].
  pose proof (declared_loop_never_complete (clock w 0) (S k + m) Hnever initial)
    as Hlast.
  destruct (loop_after cls w self (clock w 0) (S k + m) initial)
    as (d & evs & Hs & _ & Hok).
  eapply ticks_ok_never_complete in Hok; [|exact Hnever].
  destruct (loop cls w self (clock w 0) (S k + m) initial) as [r s'].
  cbn [fst snd] in *. subst r s'.
  repeat split; assumption.
Qed.

End Declared.

End WatchThreadFacts.

(** ** The dialog *)

Module DialogFacts.

Import FindHttpPort PreviewProcessorWatchThread PreviewProcessorDialog.
Local Open Scope string_scope.

Lemma split_first (c : ascii) (s : string) :
  getitem (split c s) 0 = Ok (hd "" (split c s)).
Proof.
  destruct s as [|a s]; cbn [split]; [reflexivity|].
  destruct (Ascii.eqb a c); [reflexivity|].
  now destruct (split c s).
Qed.

(** C6: when no item is parsed from the playlist, [process] returns
    without an exception and leaves everything as it was: no playlist file
    is written, no thread is created, registered or started, the range of
    the progress bar is not set and no signal is connected. *)
Theorem process_empty_playlist (cls : signals) (e : env) (s : state)
  (port : Z) (playlist : string) :
  findHttpPort (frame_log e) = Ok port ->
  urlopen_read e (playlist_url (hd "" (split "/" (frame_resource e))) port
                    (if aovs e then "/aovs" else "")) = Ok playlist ->
  findall_text e playlist = Ok [] ->
  process cls e s = (Ok tt, s).
Proof.
  intros Hport Hget Hitems. unfold process, bind, lift.
  now rewrite split_first, Hport, Hget, Hitems.
Qed.

Lemma process_empty_playlist_witness :
  process class_signals (sample_env []) fresh = (Ok tt, fresh).
Proof.
  apply (@process_empty_playlist class_signals (sample_env []) fresh 9321
           "<playlist from http://host1:9321>"); reflexivity.
Defined.

End DialogFacts.

(** ** More on port discovery *)

Module FindHttpPortMore.

Import Text FindHttpPort FindHttpPortFacts.
Local Open Scope string_scope.
Local Open Scope list_scope.

Lemma scan_take (fp : lines) :
  forall counter : Z,
    (0 <= counter < 5000)%Z ->
    scan counter fp = scan counter (take (Z.to_nat (5000 - counter)) fp).
Proof.
  induction fp as [|l rest IH|e]; intros counter Hc;
    (replace (Z.to_nat (5000 - counter))
       with (S (Z.to_nat (5000 - (counter + 1)))) by lia);
    cbn [take scan]; try reflexivity.
  destruct (Z.leb_spec 5000 (counter + 1)) as [Hge|Hlt]; [reflexivity|].
  destruct (startswith l Preview_Server); [reflexivity|].
  apply IH. lia.
Qed.

Lemma scan_line_5000_any (line : text) (rest : lines) (before : list text) :
  forall counter : Z,
    (counter + Z.of_nat (length before) = 4999)%Z ->
    scan counter (prepend before (Line line rest))
    = scan counter (prepend before Eof).
Proof.
  induction before as [|l before IH]; intros counter Hc;
    cbn [length] in Hc; cbn [prepend scan].
  - destruct (Z.leb_spec 5000 (counter + 1)); [reflexivity|cbn in Hc; lia].
  - destruct (5000 <=? counter + 1)%Z; [reflexivity|].
    destruct (startswith l Preview_Server); [reflexivity|].
    apply IH. lia.
Qed.

(** X1: what the iteration of the log yields after its 5000th line never
    matters, be it lines, the end of the file or an exception: the result
    is that of the scan of a file that ends there.  Of the 5000th line
    only the presence matters: it is counted and never examined. *)
Theorem findHttpPort_first_5000 (fp : lines) :
  findHttpPort (Ok fp) = findHttpPort (Ok (take 5000 fp))
  /\ forall before line rest,
       length before = 4999%nat ->
       findHttpPort (Ok (prepend before (Line line rest)))
       = findHttpPort (Ok (prepend before Eof)).
Proof.
  split.
  - unfold findHttpPort. now rewrite scan_take at 1 by lia.
  - intros before line rest Hlen. unfold findHttpPort.
    apply scan_line_5000_any. lia.
Qed.

Lemma findHttpPort_first_5000_witness :
  findHttpPort
    (Ok (prepend (repeat nl 4999)
           (Line (text_of "Preview Server" ++ nl) (Fail UnicodeDecodeError))))
  = findHttpPort (Ok (prepend (repeat nl 4999) Eof)).
Proof.
  apply (findHttpPort_first_5000 Eof). apply repeat_length.
Defined.

(** Line 140 returns a port or raises one of two exceptions. *)
Lemma port_of_line_outcome (line : text) :
  (exists port, port_of_line line = Ok port)
  \/ port_of_line line = Raise IndexError
  \/ port_of_line line = Raise ValueError.
Proof.
  unfold port_of_line, getitem.
  destruct (nth_error (split 58 line) 1) as [field|]; [|now right; left].
  unfold int.
  match goal with
  | |- context [match ?body with Some _ => _ | None => Raise ValueError end] =>
      destruct body as [[n count]|]; [|now right; right]
  end.
  destruct (max_str_digits <? count)%nat;
    [now right; right|left; now exists n].
Qed.

Lemma port_of_line_not_PortNotFound (line : text) :
  port_of_line line <> Raise PortNotFound.
Proof.
  destruct (port_of_line_outcome line) as [[port H]|[H|H]];
    rewrite H; discriminate.
Qed.

Lemma scan_PortNotFound_iff (fp : lines) :
  forall counter : Z,
    (0 <= counter < 5000)%Z ->
    scan counter fp = Raise PortNotFound
    <-> Forall no_server (firstn (Z.to_nat (4999 - counter)) (yielded fp))
        /\ ((5000 - counter <= Z.of_nat (length (yielded fp)))%Z
            \/ failure fp = None
            \/ failure fp = Some PortNotFound).
Proof.
  induction fp as [|l rest IH|e]; intros counter Hc;
    cbn [scan yielded failure length].
  - rewrite firstn_nil. split; [intros _|reflexivity].
    split; [constructor|now right; left].
  - destruct (Z.leb_spec 5000 (counter + 1)) as [Hge|Hlt].
    + replace (Z.to_nat (4999 - counter)) with 0%nat by lia.
      cbn [firstn]. split; [intros _|reflexivity].
      split; [constructor|left; lia].
    + replace (Z.to_nat (4999 - counter))
        with (S (Z.to_nat (4999 - (counter + 1)))) by lia.
      cbn [firstn].
      destruct (startswith l Preview_Server) eqn:Hl.
      * split.
        -- intros H. now elim (port_of_line_not_PortNotFound l).
        -- intros [H _]. inversion H as [|? ? Hno _]; subst.
           unfold no_server in Hno. congruence.
      * rewrite IH by lia. split.
        -- intros [Hall Hend]. split; [now constructor|].
           destruct Hend as [Hend|Hend]; [left; lia|now right].
        -- intros [Hall Hend]. inversion Hall as [|? ? _ Hall']; subst.
           split; [assumption|].
           destruct Hend as [Hend|Hend]; [left; lia|now right].
  - rewrite firstn_nil. split.
    + intros H. injection H as ->. split; [constructor|now right; right].
    + intros [_ [H|[H|H]]]; [exfalso; change (Z.of_nat 0) with 0%Z in H; lia|discriminate|congruence].
Qed.

(** X2: the exception of line 144 is raised exactly when none of the
    first 4999 lines the iteration yields starts with "Preview Server"
    and the iteration either yields a 5000th line or ends before with the
    end of the file (or with that very exception). *)
Theorem findHttpPort_PortNotFound_iff (fp : lines) :
  findHttpPort (Ok fp) = Raise PortNotFound
  <-> Forall no_server (firstn 4999 (yielded fp))
      /\ ((5000 <= length (yielded fp))%nat
          \/ failure fp = None
          \/ failure fp = Some PortNotFound).
Proof.
  unfold findHttpPort. rewrite scan_PortNotFound_iff by lia.
  change (Z.to_nat (4999 - 0)) with 4999%nat.
  split; (intros [Hall Hend]; split; [assumption|]);
    (destruct Hend as [Hend|Hend]; [left; lia|now right]).
Qed.

Lemma scan_outcome (fp : lines) :
  forall counter : Z,
    (0 <= counter)%Z ->
    match scan counter fp with
    | Ok port =>
        exists before line later,
          fp = prepend before (Line line later)
          /\ (counter + Z.of_nat (length before) < 4999)%Z
          /\ Forall no_server before
          /\ startswith line Preview_Server = true
          /\ port_of_line line = Ok port
    | Raise e =>
        e = PortNotFound \/ e = IndexError \/ e = ValueError
        \/ failure fp = Some e
    end.
Proof.
  induction fp as [|l rest IH|e]; intros counter Hc; cbn [scan failure].
  - now left.
  - destruct (Z.leb_spec 5000 (counter + 1)) as [Hge|Hlt]; [now left|].
    destruct (startswith l Preview_Server) eqn:Hl.
    + destruct (port_of_line_outcome l) as [[port H]|[H|H]]; rewrite H.
      * exists [], l, rest. cbn [prepend length].
        repeat split; try assumption; try constructor. lia.
      * now right; left.
      * now right; right; left.
    + specialize (IH (counter + 1)%Z ltac:(lia)).
      destruct (scan (counter + 1) rest) as [port|e]; [|exact IH].
      destruct IH as (before & line & later & -> & Hlen & Hall & Hline & Hp).
      exists (l :: before), line, later. cbn [prepend length].
      repeat split; try assumption; [lia|now constructor].
  - now right; right; right.
Qed.

(** X4: the outcomes of port discovery.  A port is returned only as the
    integer of the first announcing line, one of the first 4999 lines the
    iteration yields.  An exception is that of line 144, [IndexError]
    (announcing line without a colon), [ValueError] (no integer after
    the colon), the exception of lines 131-132, or the one that ended the
    iteration of the file. *)
Theorem findHttpPort_outcome (log : result lines) :
  match findHttpPort log with
  | Ok port =>
      exists before line later,
        log = Ok (prepend before (Line line later))
        /\ (length before < 4999)%nat
        /\ Forall no_server before
        /\ startswith line Preview_Server = true
        /\ port_of_line line = Ok port
  | Raise e =>
      e = PortNotFound \/ e = IndexError \/ e = ValueError
      \/ log = Raise e
      \/ exists fp, log = Ok fp /\ failure fp = Some e
  end.
Proof.
  destruct log as [fp|e]; cbn [findHttpPort]; [|now right; right; right; left].
  pose proof (@scan_outcome fp 0%Z ltac:(lia)) as H.
  destruct (scan 0 fp) as [port|e].
  - destruct H as (before & line & later & -> & Hlen & Hall & Hline & Hp).
    exists before, line, later. repeat split; try assumption. lia.
  - destruct H as [H|[H|[H|H]]]; auto.
    right; right; right; right. now exists fp.
Qed.

(** The exceptions of the file are met: a log that is not there, and one
    whose second block of bytes is not text. *)
Example findHttpPort_no_file :
  findHttpPort (Raise FileNotFoundError) = Raise FileNotFoundError.
Proof. reflexivity. Qed.

Example findHttpPort_bad_byte :
  findHttpPort
    (Ok (Line (text_of "Loading scene" ++ nl) (Fail UnicodeDecodeError)))
  = Raise UnicodeDecodeError.
Proof. reflexivity. Qed.

(** [int] reads the decimal digits of every script and refuses more than
    4300 digits. *)
Example int_arabic_indic :
  int [1641; 1635; 1634; 1633]%N = Ok 9321%Z.
Proof. vm_compute. reflexivity. Qed.

Example int_4301_digits :
  int (repeat 49%N 4301) = Raise ValueError
  /\ exists n, int (repeat 49%N 4300) = Ok n.
Proof.
  split; [vm_compute; reflexivity|].
  destruct (int (repeat 49%N 4300)) as [n|e] eqn:H; [now exists n|].
  vm_compute in H. discriminate.
Qed.

End FindHttpPortMore.

(** ** More on the dialog *)

Module DialogMore.

Import FindHttpPort PreviewProcessorWatchThread PreviewProcessorDialog.
Import PreviewProcessorSlots WatchThreadFacts DialogFacts.
Local Open Scope string_scope.
Local Open Scope list_scope.

(** X6: an exception raised while the port is looked up, the playlist is
    fetched or its items are parsed leaves [process] as it is raised, and
    nothing has been set up by then: no file, no thread, no range, no
    connection. *)
Theorem process_discovery_raises (cls : signals) (e : env) (s : state)
  (err : exn) :
  (findHttpPort (frame_log e) = Raise err
   \/ (exists port,
          findHttpPort (frame_log e) = Ok port
          /\ urlopen_read e
               (playlist_url (hd "" (split "/" (frame_resource e))) port
                  (if aovs e then "/aovs" else "")) = Raise err)
   \/ (exists port playlist,
          findHttpPort (frame_log e) = Ok port
          /\ urlopen_read e
               (playlist_url (hd "" (split "/" (frame_resource e))) port
                  (if aovs e then "/aovs" else "")) = Ok playlist
          /\ findall_text e playlist = Raise err)) ->
  process cls e s = (Raise err, s).
Proof.
  unfold process, bind, lift. rewrite split_first.
  intros [Hport|[(port & Hport & Hget)|(port & playlist & Hport & Hget & Hitems)]].
  - now rewrite Hport.
  - now rewrite Hport, Hget.
  - now rewrite Hport, Hget, Hitems.
Qed.

Lemma process_discovery_raises_witness :
  process class_signals
    {| frame_resource := "host1/1.0"; aovs := true;
       frame_log := Ok (Line (Text.text_of "Loading scene" ++ Text.nl) Eof);
       urlopen_read := fun url => Ok url;
       findall_text := fun _ => Ok ["/a"];
       mkstemp := fun suffix prefix => (prefix ++ suffix)%string |}
    fresh
  = (Raise PortNotFound, fresh).
Proof.
  apply process_discovery_raises. left. reflexivity.
Defined.

(** The calls backed by a run carry payloads within bounds. *)
Lemma backed_bounds (cls : signals) (w : world) (self : thread) (n : nat)
  (current max_progress : Z) :
  backed (trace (snd (run cls w self n initial)))
    (UpdateProgress current max_progress) ->
  (0 <= current <= max_progress)%Z /\ max_progress = len (items self).
Proof.
  intros (e & Hin & He). rewrite run_loop in Hin.
  destruct (loop_after cls w self (clock w 0) n initial)
    as (d & evs & Hs & _ & Hok).
  rewrite Hs in Hin. cbn [after initial trace app] in Hin.
  apply ticks_ok_bounds in Hok. rewrite Forall_forall in Hok.
  now apply (Hok e Hin).
Qed.

Lemma fold_slot (total : Z) (calls : list call) :
  Forall (fun c => match c with
                   | UpdateProgress current max_progress =>
                       (0 <= current <= max_progress)%Z /\ max_progress = total
                   | ProcessTimedOut => True
                   end) calls ->
  forall d,
    (exists new,
        setValue_calls (fold_left slot calls d) = setValue_calls d ++ new
        /\ Forall (fun v => (0 <= v < total)%Z) new)
    /\ closed (fold_left slot calls d) = closed d || existsb closes calls
    /\ critical_boxes (fold_left slot calls d)
       = critical_boxes d
         ++ repeat timeout_box (length (filter is_ProcessTimedOut calls)).
Proof.
  induction 1 as [|c calls Hc _ IH]; intros d; cbn [fold_left].
  - repeat split.
    + exists []. now rewrite app_nil_r.
    + now rewrite orb_false_r.
    + cbn. now rewrite app_nil_r.
  - destruct (IH (slot d c)) as ((new & Hnew & Hrange) & Hclosed & Hboxes).
    rewrite Hnew, Hclosed, Hboxes. clear IH Hnew Hclosed Hboxes.
    destruct c as [current max_progress|]; cbn [slot existsb closes filter
      is_ProcessTimedOut].
    + unfold updateProgressDialog.
      destruct Hc as [Hb ->].
      destruct (Z.eqb_spec total current) as [Heq|Hne];
        cbn [negb setValue_calls closed critical_boxes].
      * repeat split; [now exists new|now rewrite orb_true_r].
      * repeat split.
        -- exists (current :: new). rewrite <- app_assoc. split; [reflexivity|].
           constructor; [lia|assumption].
    + unfold processTimedOut. cbn [setValue_calls closed critical_boxes].
      repeat split; [now exists new|now rewrite orb_true_r|].
      cbn [length repeat]. now rewrite <- app_assoc.
Qed.

(** X7: however the notifications of a run reach the two slots (some may
    be lost or repeated), the values handed to the progress bar lie in
    [0, len(items)), within the range of line 99; the dialog is closed
    exactly when it was closed before or a call came with
    [current = max_progress] or for the timeout; and one error box is
    shown per timeout call. *)
Theorem slots_after_run (cls : signals) (w : world) (self : thread)
  (n : nat) (calls : list call) (d : widget) :
  Forall (backed (trace (snd (run cls w self n initial)))) calls ->
  (exists new,
      setValue_calls (fold_left slot calls d) = setValue_calls d ++ new
      /\ Forall (fun v => (0 <= v < len (items self))%Z) new)
  /\ closed (fold_left slot calls d) = closed d || existsb closes calls
  /\ critical_boxes (fold_left slot calls d)
     = critical_boxes d
       ++ repeat timeout_box (length (filter is_ProcessTimedOut calls)).
Proof.
  intros Hbacked. apply fold_slot.
  eapply Forall_impl; [|exact Hbacked].
  intros [current max_progress|] Hc; [|exact I].
  now apply backed_bounds in Hc.
Qed.

Lemma slots_after_run_witness :
  let calls := [UpdateProgress 1 2] in
  let d := {| setValue_calls := []; closed := false; critical_boxes := [] |} in
  (exists new,
      setValue_calls (fold_left slot calls d) = setValue_calls d ++ new
      /\ Forall (fun v => (0 <= v < len (items (__init__ ["/a"; "/b"])))%Z) new)
  /\ closed (fold_left slot calls d) = closed d || existsb closes calls
  /\ critical_boxes (fold_left slot calls d)
     = critical_boxes d
       ++ repeat timeout_box (length (filter is_ProcessTimedOut calls)).
Proof.
  apply (@slots_after_run class_signals only_a_exists
           (__init__ ["/a"; "/b"]) 1).
  constructor; [|constructor].
  exists (EmitOldStyle "existCountChanged(int, int)" [1; 2]%Z).
  split; [left|]; reflexivity.
Defined.



(** A playlist passed on as text would be written: [fp.write] refuses
    only [bytes]. *)
Example writePlaylist_text :
  writePlaylist (sample_env []) (Str "<itv/>") fresh
  = (Ok "/tmp/playlist0001.itv",
     {| itvFile := None; previewThread := None; progbar_range := (0, 100)%Z;
        app_threads := []; files := [("/tmp/playlist0001.itv", "<itv/>")];
        started := []; connections := [] |}).
Proof. reflexivity. Qed.

End DialogMore.

(** ** More on the polling loop *)

Module WatchThreadMore.

Import PreviewProcessorWatchThread WatchThreadNotions WatchThreadFacts.
Local Open Scope string_scope.
Local Open Scope list_scope.

(** X8: with the signals of the class as written every run, whatever the
    items, the files and the clock, ends in its first pass: it emits the
    one progress notification of line 168, does not sleep, and raises
    [AttributeError] for the name [existsCountChanged] of line 169. *)
Theorem run_as_written (w : world) (self : thread) (n : nat) :
  let r := run class_signals w self (S n) initial in
  fst r = Raise (AttributeError "existsCountChanged")
  /\ sleeps (snd r) = 0%nat
  /\ trace (snd r) = [first_emit w self initial]
  /\ payloads (trace (snd r))
     = [(existing_count w 0 (items self), len (items self))].
Proof.
  cbn zeta. rewrite run_class_signals. repeat split.
Qed.

Section Traces.

Variable cls : signals.
Variable w : world.
Variable self : thread.

Lemma payloads_app (tr tr' : list event) :
  payloads (tr ++ tr') = payloads tr ++ payloads tr'.
Proof.
  induction tr as [|e tr IH]; cbn [app payloads]; [reflexivity|].
  destruct (progress e); now rewrite IH.
Qed.

Lemma existing_count_mono (l : list string) (k : nat) :
  never_disappear w ->
  (existing_count w k l <= existing_count w (S k) l)%Z.
Proof.
  intros Hw. unfold existing_count, len.
  induction l as [|p l IH]; cbn [filter]; [lia|].
  destruct (path_exists w k p) eqn:Hp.
  - rewrite (Hw k p Hp). cbn [length]. lia.
  - destruct (path_exists w (S k) p); cbn [length]; lia.
Qed.

(** With files that stay, the counts of a trace that follows the file
    system never decrease, from the count of its first tick on. *)
Lemma ticks_ok_sorted (tr : list event) :
  never_disappear w ->
  forall k,
    ticks_ok w self k tr ->
    Forall (fun c => (existing_count w k (items self) <= c)%Z) (counts tr)
    /\ StronglySorted Z.le (counts tr).
Proof.
  intros Hw. unfold counts.
  induction tr as [|e tr IH]; intros k Hok; [split; constructor|].
  assert (Hstep : ticks_ok w self (S k) tr ->
                  Forall (fun c => (existing_count w k (items self) <= c)%Z)
                    (map fst (payloads tr))
                  /\ StronglySorted Z.le (map fst (payloads tr))).
  { intros Hrest. destruct (IH (S k) Hrest) as [Hge Hsorted].
    split; [|assumption].
    eapply Forall_impl; [|exact Hge]. intros c Hc. cbn beta in Hc.
    pose proof (existing_count_mono (items self) k Hw). lia. }
  destruct e; cbn [ticks_ok] in Hok; cbn [payloads];
    try (destruct Hok as [He Hok]; destruct (IH k Hok) as [Hge Hsorted];
         destruct (progress _) as [p|];
         [subst p; cbn [map fst]; split;
          [constructor; [lia|assumption]|constructor; assumption]
         |split; assumption]).
  cbn [progress]. now apply Hstep.
Qed.

End Traces.

(** X9: when no file that exists disappears again, the counts reported by
    the progress notifications of a run never decrease. *)
Theorem run_counts_never_decrease (cls : signals) (w : world)
  (self : thread) (n : nat) :
  never_disappear w ->
  StronglySorted Z.le (counts (trace (snd (run cls w self n initial)))).
Proof.
  intros Hw. rewrite run_loop.
  destruct (loop_after cls w self (clock w 0) n initial)
    as (d & evs & Hs & _ & Hok).
  rewrite Hs. cbn [after initial trace app].
  eapply ticks_ok_sorted in Hok; [|exact Hw]. exact (proj2 Hok).
Qed.

Lemma a_after_two_sleeps_stays : never_disappear a_after_two_sleeps.
Proof.
  intros k p. cbn [a_after_two_sleeps path_exists].
  intros H. apply andb_true_iff in H as [Hp Hk]. rewrite Hp.
  apply Nat.leb_le in Hk. cbn [andb]. apply Nat.leb_le. lia.
Qed.

Lemma run_counts_never_decrease_witness :
  StronglySorted Z.le
    (counts (trace (snd (run declared_signals a_after_two_sleeps
                           (__init__ ["/a"; "/b"]) 5 initial)))).
Proof.
  exact (@run_counts_never_decrease declared_signals a_after_two_sleeps
           (__init__ ["/a"; "/b"]) 5 a_after_two_sleeps_stays).
Defined.

Example counts_a_after_two_sleeps :
  counts (trace (snd (run declared_signals a_after_two_sleeps
                        (__init__ ["/a"; "/b"]) 4 initial)))
  = [0; 0; 0; 0; 1; 1; 1; 1]%Z.
Proof. vm_compute. reflexivity. Qed.

Section Shape.

Variable cls : signals.
Variable w : world.
Variable self : thread.

Lemma existsb_is_timeout_app (tr tr' : list event) :
  existsb is_timeout (tr ++ tr')
  = existsb is_timeout tr || existsb is_timeout tr'.
Proof. apply existsb_app. Qed.

Lemma incomplete_app (tr tr' : list event) :
  incomplete tr -> incomplete tr' -> incomplete (tr ++ tr').
Proof.
  unfold incomplete. intros H H'. rewrite payloads_app.
  apply Forall_app. now split.
Qed.

(** A timeout notification is the mark of the exit of line 176. *)
Lemma loop_exclusive (t0 : float) (n : nat) :
  forall s,
    existsb is_timeout (trace s) = false ->
    incomplete (trace s) ->
    match loop cls w self t0 n s with
    | (Ok Running, s') =>
        existsb is_timeout (trace s') = false /\ incomplete (trace s')
    | (Ok TimedOut, s') =>
        filter is_timeout (trace s') = [EmitSignal "timeout" []]
        /\ incomplete (trace s')
    | (_, s') => existsb is_timeout (trace s') = false
    end.
Proof.
  induction n as [|n IH]; intros s Hno Hinc; [now split|].
  rewrite loop_S, pass_cases.
  assert (Hfilter : filter is_timeout (trace s) = []).
  { clear -Hno. induction (trace s) as [|e tr IHtr]; [reflexivity|].
    cbn [existsb filter] in *. apply orb_false_iff in Hno as [He Htr].
    rewrite He. now apply IHtr. }
  destruct (getattr cls "existsCountChanged").
  - destruct (Z.eqb_spec (existing_count w (sleeps s) (items self))
                (len (items self))) as [Heq|Hne].
    + cbn [after trace]. rewrite existsb_is_timeout_app, Hno. reflexivity.
    + assert (Hpass : incomplete [first_emit w self s; second_emit w self s;
                                  Sleep 1])
        by (unfold incomplete, first_emit, second_emit;
            cbn [payloads progress]; repeat constructor; exact Hne).
      destruct (gt _ _).
      * destruct (getattr cls "timeout"); cbn [after trace].
        -- split.
           ++ rewrite filter_app, Hfilter. reflexivity.
           ++ apply incomplete_app; [assumption|].
              unfold incomplete, first_emit, second_emit.
              cbn [payloads progress]. repeat constructor; exact Hne.
        -- rewrite existsb_is_timeout_app, Hno. reflexivity.
      * apply IH; cbn [after trace].
        -- rewrite existsb_is_timeout_app, Hno. reflexivity.
        -- now apply incomplete_app.
  - cbn [after trace]. rewrite existsb_is_timeout_app, Hno. reflexivity.
Qed.

Lemma count_first_emits_app (tr tr' : list event) :
  count_first_emits (tr ++ tr')
  = (count_first_emits tr + count_first_emits tr')%nat.
Proof.
  unfold count_first_emits. now rewrite filter_app, length_app.
Qed.

(** Reports and sleeps alternate, the report first. *)
Lemma loop_cadence (t0 : float) (n : nat) :
  forall s,
  exists a b,
    count_first_emits (trace (snd (loop cls w self t0 n s)))
    = (count_first_emits (trace s) + a)%nat
    /\ count_sleeps (trace (snd (loop cls w self t0 n s)))
       = (count_sleeps (trace s) + b)%nat
    /\ (b <= a <= S b)%nat
    /\ (fst (loop cls w self t0 n s) = Ok Running -> a = b).
Proof.
  induction n as [|n IH]; intros s.
  - exists 0%nat, 0%nat. cbn [loop ret snd fst]. repeat split; lia.
  - rewrite loop_S, pass_cases.
    destruct (getattr cls "existsCountChanged") as [nm|err].
    + destruct (_ =? _)%Z.
      * exists 1%nat, 0%nat. cbn [snd fst after trace].
        rewrite count_first_emits_app, count_sleeps_app.
        repeat split; try lia. discriminate.
      * destruct (gt _ _).
        -- exists 1%nat, 1%nat.
           destruct (getattr cls "timeout") as [nm'|err];
             cbn [snd fst after trace];
             rewrite count_first_emits_app, count_sleeps_app;
             repeat split; try lia.
        -- destruct (IH (after s 1 [first_emit w self s; second_emit w self s;
                                    Sleep 1])) as (a & b & Ha & Hb & Hab & Hrun).
           exists (S a), (S b). rewrite Ha, Hb. cbn [after trace].
           rewrite count_first_emits_app, count_sleeps_app.
           repeat split; try lia.
           ++ cbn. lia.
           ++ cbn. lia.
           ++ intros Hr. f_equal. now apply Hrun.
    + exists 1%nat, 0%nat. cbn [snd fst after trace].
      rewrite count_first_emits_app, count_sleeps_app.
      repeat split; try lia. discriminate.
Qed.

(** Each pass adds a report, then at most one sleep. *)
Lemma loop_alternate (t0 : float) (n : nat) :
  forall s,
  exists evs,
    trace (snd (loop cls w self t0 n s)) = trace s ++ evs
    /\ alternate true evs = true.
Proof.
  induction n as [|n IH]; intros s.
  - exists []. cbn [loop ret snd]. now rewrite app_nil_r.
  - rewrite loop_S, pass_cases.
    destruct (getattr cls "existsCountChanged") as [nm|err].
    + destruct (_ =? _)%Z.
      * eexists. cbn [snd after trace]. split; reflexivity.
      * destruct (gt _ _).
        -- destruct (getattr cls "timeout") as [nm'|err];
             eexists; cbn [snd after trace]; split; reflexivity.
        -- destruct (IH (after s 1 [first_emit w self s; second_emit w self s;
                                    Sleep 1])) as (evs & Hevs & Halt).
           exists ([first_emit w self s; second_emit w self s; Sleep 1]
                   ++ evs).
           rewrite Hevs. cbn [after trace]. rewrite <- app_assoc.
           split; [reflexivity|]. exact Halt.
    + eexists. cbn [snd after trace]. split; reflexivity.
Qed.

End Shape.

(** X10: a run emits the timeout notification at most once, and only when
    it leaves by line 176; it has then reported no count equal to the
    total.  A run that completes, raises or is still going has emitted no
    timeout notification. *)
Theorem run_timeout_excludes_completion (cls : signals) (w : world)
  (self : thread) (n : nat) :
  let r := run cls w self n initial in
  match fst r with
  | Ok TimedOut =>
      filter is_timeout (trace (snd r)) = [EmitSignal "timeout" []]
      /\ incomplete (trace (snd r))
  | _ => existsb is_timeout (trace (snd r)) = false
  end.
Proof.
  cbn zeta. rewrite run_loop.
  assert (H0 : existsb is_timeout (trace initial) = false) by reflexivity.
  assert (H1 : incomplete (trace initial)) by constructor.
  pose proof (@loop_exclusive cls w self (clock w 0) n initial H0 H1) as H.
  destruct (loop cls w self (clock w 0) n initial) as [[[]|e] s'];
    cbn [fst snd]; tauto.
Qed.

(** X11: in every run the progress reports of line 168 and the sleeps of
    line 172 alternate, the report first: in the trace a report is
    followed by no other report before a sleep, a sleep by no other sleep
    before a report, and no sleep comes before the first report.  So
    there are as many reports as sleeps or one more, and the sleeps of
    the trace are those counted in the state. *)
Theorem run_reports_before_sleeps (cls : signals) (w : world)
  (self : thread) (n : nat) :
  let r := run cls w self n initial in
  alternate true (trace (snd r)) = true
  /\ (count_sleeps (trace (snd r)) <= count_first_emits (trace (snd r))
      <= S (count_sleeps (trace (snd r))))%nat
  /\ count_sleeps (trace (snd r)) = sleeps (snd r).
Proof.
  cbn zeta. rewrite run_loop.
  destruct (loop_cadence cls w self (clock w 0) n initial)
    as (a & b & Ha & Hb & Hab & _).
  destruct (loop_after cls w self (clock w 0) n initial)
    as (d & evs & Hs & Hd & _).
  destruct (loop_alternate cls w self (clock w 0) n initial)
    as (evs' & Hevs & Halt).
  repeat split.
  - rewrite Hevs. exact Halt.
  - rewrite Ha, Hb. cbn. lia.
  - rewrite Ha, Hb. cbn. lia.
  - rewrite Hs. cbn [after initial trace sleeps app]. lia.
Qed.

(** Two reports in a row, or a sleep first, do not alternate. *)
Example alternate_refuses :
  alternate true [EmitOldStyle "existCountChanged(int, int)" [0; 1]%Z;
                  EmitOldStyle "existCountChanged(int, int)" [0; 1]%Z]
  = false
  /\ alternate true [Sleep 1] = false
  /\ alternate true [EmitOldStyle "existCountChanged(int, int)" [0; 1]%Z;
                     Sleep 1; Sleep 1] = false.
Proof. repeat split. Qed.

(** *** The loop of a class that binds the names [run] asks for *)

(** X12: for a thread whose class binds [existsCountChanged], completion
    comes first: a pass that finds every item leaves by line 171 without
    sleeping or reading the clock, whatever the time; so a run that finds
    every item at its start is over after the two emissions of its first
    pass, which carry [(N, N)]. *)
Theorem bound_run_completes_at_once (cls : signals) (w : world)
  (self : thread) :
  getattr cls "existsCountChanged" = Ok "existsCountChanged" ->
  (forall start_time s,
      existing_count w (sleeps s) (items self) = len (items self) ->
      pass cls w self start_time s
      = (Ok Completed,
         after s 0 [first_emit w self s; second_emit w self s]))
  /\ ((forall p, In p (items self) -> path_exists w 0 p = true) ->
      forall n,
        run cls w self (S n) initial
        = (Ok Completed,
           {| sleeps := 0;
              trace := [EmitOldStyle "existCountChanged(int, int)"
                          [len (items self); len (items self)];
                        EmitSignal "existsCountChanged"
                          [len (items self); len (items self)]] |})).
Proof.
  intros Hprogress. split.
  - intros start_time s. now apply declared_pass_completed.
  - intros Hall n. rewrite declared_run_all_present by assumption.
    unfold after, first_emit, second_emit. cbn [initial sleeps trace app].
    now rewrite existing_count_all.
Qed.

Lemma bound_run_completes_at_once_witness :
  run declared_signals slow_sleeps (__init__ ["/a"]) 3 initial
  = (Ok Completed,
     {| sleeps := 0;
        trace := [EmitOldStyle "existCountChanged(int, int)" [1; 1]%Z;
                  EmitSignal "existsCountChanged" [1; 1]%Z] |}).
Proof.
  apply (proj2 (@bound_run_completes_at_once declared_signals slow_sleeps
                  (__init__ ["/a"]) eq_refl)).
  intros p [<-|[]]. reflexivity.
Defined.

(** X13: for a thread for [N] items, [N] not zero, whose class binds
    both names, when no item ever exists the run times out at the first
    sleep after which the clock reads more than the deadline of line 173
    (the float sum of [60 + 30 * N] and the start time), not before:
    if the readings after the first [k] sleeps are not beyond it and the
    next one is, every run of at most [k] passes is still going and every
    longer one has timed out after [k + 1] sleeps; the timeout
    notification and the warning are the last things it does, and no
    progress notification carried a count equal to the total. *)
Theorem bound_run_times_out (cls : signals) (w : world)
  (items : list string) (k : nat) :
  getattr cls "existsCountChanged" = Ok "existsCountChanged" ->
  getattr cls "timeout" = Ok "timeout" ->
  items <> [] ->
  (forall j p, In p items -> path_exists w j p = false) ->
  let self := __init__ items in
  within w self (clock w 0) k ->
  gt (clock w (S k)) (deadline self (clock w 0)) = true ->
  (forall n, (n <= k)%nat -> fst (run cls w self n initial) = Ok Running)
  /\ forall m,
       let r := run cls w self (S k + m) initial in
       fst r = Ok TimedOut
       /\ sleeps (snd r) = S k
       /\ (exists before,
              trace (snd r)
              = before ++ [EmitSignal "timeout" [];
                           Warning "Timed out waiting for preview server."])
       /\ incomplete (trace (snd r)).
Proof.
  intros Hprogress Htimeout Hitems Hnone self Hin Hlate. split.
  - intros n Hn. rewrite run_loop.
    apply (@declared_loop_goes_on cls w self Hprogress Htimeout (clock w 0) k);
      [|exact Hin|cbn [initial sleeps]; lia].
    intros j. rewrite existing_count_none by (intros p; apply Hnone).
    unfold self, len. cbn [__init__ PreviewProcessorWatchThread.items].
    destruct items; [now elim Hitems|cbn [length]; lia].
  - intros m.
    exact (@declared_never_present_times_out cls w self Hprogress Htimeout
             k m Hitems Hnone Hin Hlate).
Qed.

Lemma within_rounding :
  within rounding (__init__ ["/a"]) (clock rounding 0) 1.
Proof.
  intros j Hj. replace j with 1%nat by lia. vm_compute. reflexivity.
Qed.

Lemma bound_run_times_out_witness :
  fst (run declared_signals rounding (__init__ ["/a"]) 1 initial) = Ok Running
  /\ fst (run declared_signals rounding (__init__ ["/a"]) 2 initial)
     = Ok TimedOut.
Proof.
  destruct (@bound_run_times_out declared_signals rounding ["/a"] 1
              eq_refl eq_refl) as [Hon Hout].
  - discriminate.
  - reflexivity.
  - exact within_rounding.
  - vm_compute. reflexivity.
  - split; [apply Hon; lia|apply (Hout 0%nat)].
Defined.

Lemma bound_loop_returns (cls : signals) (w : world) (self : thread)
  (t0 : float) (n : nat) :
  getattr cls "existsCountChanged" = Ok "existsCountChanged" ->
  getattr cls "timeout" = Ok "timeout" ->
  forall s, exists st, fst (loop cls w self t0 n s) = Ok st.
Proof.
  intros Hprogress Htimeout.
  induction n as [|n IH]; intros s; [now exists Running|].
  rewrite loop_S, pass_cases, Hprogress, Htimeout.
  destruct (_ =? _)%Z; [now exists Completed|].
  destruct (gt _ _); [now exists TimedOut|apply IH].
Qed.

(** X14: for a thread whose class binds both names, a run that has left
    the loop has not raised, and the last notification it emitted is
    final: a progress notification with [current = total] or the
    timeout. *)
Theorem bound_run_ends_on_final (cls : signals) (w : world) (self : thread)
  (n : nat) :
  getattr cls "existsCountChanged" = Ok "existsCountChanged" ->
  getattr cls "timeout" = Ok "timeout" ->
  let r := run cls w self n initial in
  left_loop (fst r) = true ->
  (fst r = Ok Completed \/ fst r = Ok TimedOut)
  /\ exists before e,
       filter is_notification (trace (snd r)) = before ++ [e]
       /\ is_final e = true.
Proof.
  intros Hprogress Htimeout r Hleft. unfold r in *. rewrite run_loop in *.
  split.
  - destruct (@bound_loop_returns cls w self (clock w 0) n Hprogress Htimeout
                initial) as [st Hst].
    rewrite Hst in *. destruct st; [discriminate Hleft|now left|now right].
  - now apply declared_last_notification_final.
Qed.

Lemma bound_run_ends_on_final_witness :
  let r := run declared_signals nothing_exists (__init__ ["/a"]) 91 initial in
  (fst r = Ok Completed \/ fst r = Ok TimedOut)
  /\ exists before e,
       filter is_notification (trace (snd r)) = before ++ [e]
       /\ is_final e = true.
Proof.
  apply (@bound_run_ends_on_final declared_signals nothing_exists
           (__init__ ["/a"]) 91 eq_refl eq_refl).
  vm_compute. reflexivity.
Defined.

End WatchThreadMore.
